(** * Contact form and newsletter validation (homework_60)

    The repository validates two small form records with Yup schemas that
    Formik evaluates ([validationSchema]).  This development embeds

    - the JavaScript string primitives the schemas call ([trim], [split],
      [length], anchored regular expressions),
    - the part of Yup 1.x the schemas use (string / boolean / mixed schemas,
      [min], [max], [matches], [email], [test], [oneOf], [nullable],
      [required], object schemas validated with [abortEarly: false]); in
      Yup 1.x the presence and type checks of a schema run before its other
      tests, and a schema that fails them reports nothing else,
    - Formik's glue around a schema ([prepareDataForValidation],
      [yupToFormErrors], [isValid]) and its re-validation on every change,
      blur and submit,
    - the schemas of [src/components/ContactForm.tsx], of the second,
      hook-based copy of that component, and the exported schemas of
      [src/validation],

    and proves the properties the specification states about them.  Each
    component hands its own schema to Formik.  The rules and messages the
    specification quotes are those of ContactForm.tsx; the hook-based copy
    is checked against them, and the exported schemas, which no form uses,
    are evaluated for comparison. *)

From Stdlib Require Import NArith List String Ascii Bool Lia.
From stdpp Require Import gmap strings pretty list fin_maps.

Local Open Scope nat_scope.

(* ===================================================================== *)
(** ** JavaScript strings *)
(* ===================================================================== *)

Module JS.

(** A JavaScript string is a sequence of UTF-16 code units; [length]
    counts code units. *)
Abbreviation str := (list N).

(** An ASCII literal as a JavaScript string. *)
Definition lit (s : string) : str :=
  map N_of_ascii (list_ascii_of_string s).

(** WhiteSpace and LineTerminator code units: what [String.prototype.trim]
    strips and what the class [\s] matches. *)
Definition isWhiteSpace (c : N) : bool :=
  ((9 <=? c) && (c <=? 13) || (c =? 32) || (c =? 160) || (c =? 5760)
   || (8192 <=? c) && (c <=? 8202) || (c =? 8232) || (c =? 8233)
   || (c =? 8239) || (c =? 8287) || (c =? 12288) || (c =? 65279))%N.

Fixpoint trimStart (s : str) : str :=
  match s with
  | c :: s' => if isWhiteSpace c then trimStart s' else s
  | [] => []
  end.

Definition trimEnd (s : str) : str := rev (trimStart (rev s)).

Definition trim (s : str) : str := trimEnd (trimStart s).

(** [s.split(sep)] for a separator of one code unit: the pieces between
    the occurrences of [sep]; the empty string splits into one empty
    piece. *)
Fixpoint split (sep : N) (s : str) : list str :=
  match s with
  | [] => [[]]
  | c :: s' =>
      if (c =? sep)%N then [] :: split sep s'
      else match split sep s' with
           | p :: ps => (c :: p) :: ps
           | [] => [[c]]
           end
  end.

(** Truthiness of a string: [!!value]. *)
Definition truthy (s : str) : bool :=
  match s with [] => false | _ :: _ => true end.

Definition SPACE : N := 32%N.

End JS.

(* ===================================================================== *)
(** ** Regular expressions *)
(* ===================================================================== *)

(** Every pattern of the schemas has the form [/^...$/] without flags, so
    [value.search(regex) !== -1] holds exactly when the whole value matches
    the body.  Bodies are matched by Brzozowski derivatives. *)

Module RegExp.

Inductive re : Type :=
| Never
| Empty
| Class (p : N -> bool)
| Seq (a b : re)
| Alt (a b : re)
| Star (a : re).

Fixpoint nullable (r : re) : bool :=
  match r with
  | Never => false
  | Empty => true
  | Class _ => false
  | Seq a b => nullable a && nullable b
  | Alt a b => nullable a || nullable b
  | Star _ => true
  end.

(** Constructors that drop the dead branches a derivative produces. *)
Definition seq (a b : re) : re :=
  match a, b with
  | Never, _ => Never
  | _, Never => Never
  | Empty, _ => b
  | _, _ => Seq a b
  end.

Definition alt (a b : re) : re :=
  match a, b with
  | Never, _ => b
  | _, Never => a
  | _, _ => Alt a b
  end.

Fixpoint deriv (c : N) (r : re) : re :=
  match r with
  | Never => Never
  | Empty => Never
  | Class p => if p c then Empty else Never
  | Seq a b =>
      if nullable a then alt (seq (deriv c a) b) (deriv c b)
      else seq (deriv c a) b
  | Alt a b => alt (deriv c a) (deriv c b)
  | Star a => seq (deriv c a) (Star a)
  end.

Fixpoint matches (r : re) (s : JS.str) : bool :=
  match s with
  | [] => nullable r
  | c :: s' => matches (deriv c r) s'
  end.

(** [value.search(/^body$/)]: index 0 on a match, -1 otherwise. *)
Definition search (body : re) (s : JS.str) : Z :=
  if matches body s then 0%Z else (-1)%Z.

(** *** Pattern syntax *)

Definition plus (a : re) : re := Seq a (Star a).
Definition opt (a : re) : re := Alt Empty a.

(** [a{n}] *)
Fixpoint times (n : nat) (a : re) : re :=
  match n with
  | O => Empty
  | S k => Seq a (times k a)
  end.

(** [a{0,n}] *)
Fixpoint upto (n : nat) (a : re) : re :=
  match n with
  | O => Empty
  | S k => opt (Seq a (upto k a))
  end.

(** [a{m,n}] and [a{m,}] *)
Definition range (m n : nat) (a : re) : re := Seq (times m a) (upto (n - m) a).
Definition atLeast (m : nat) (a : re) : re := Seq (times m a) (Star a).

Definition between (lo hi c : N) : bool := ((lo <=? c) && (c <=? hi))%N.

(** [\d], [\s], [\S], a literal character, a set of literal characters *)
Definition isDigit (c : N) : bool := between 48 57 c.
Definition isNonSpace (c : N) : bool := negb (JS.isWhiteSpace c).
Definition isChar (x : N) (c : N) : bool := (c =? x)%N.
Definition oneOfChars (xs : JS.str) (c : N) : bool := existsb (N.eqb c) xs.
Definition isAlnum (c : N) : bool :=
  between 97 122 c || between 65 90 c || between 48 57 c.

Definition digit : re := Class isDigit.
Definition space : re := Class JS.isWhiteSpace.
Definition nonspace : re := Class isNonSpace.

(** *** Matched language *)

Inductive lang : re -> JS.str -> Prop :=
| L_Empty : lang Empty []
| L_Class p c : p c = true -> lang (Class p) [c]
| L_Seq a b s1 s2 : lang a s1 -> lang b s2 -> lang (Seq a b) (s1 ++ s2)
| L_AltL a b s : lang a s -> lang (Alt a b) s
| L_AltR a b s : lang b s -> lang (Alt a b) s
| L_Star0 a : lang (Star a) []
| L_StarS a s1 s2 : lang a s1 -> lang (Star a) s2 -> lang (Star a) (s1 ++ s2).

End RegExp.

(* ===================================================================== *)
(** ** JavaScript values and exceptions *)
(* ===================================================================== *)

Module Value.

(** A [File] object; the schemas read its [size] only. *)
Record File : Type := { size : N }.

(** The values a form field can hold. *)
Inductive value : Type :=
| Undefined
| Null
| Str (s : JS.str)
| Bool (b : bool)
| FileObj (f : File).

(** [value == null] *)
Definition isAbsent (v : value) : bool :=
  match v with Undefined | Null => true | _ => false end.

(** [!!value]; an object is truthy. *)
Definition truthy (v : value) : bool :=
  match v with
  | Undefined | Null => false
  | Str s => JS.truthy s
  | Bool b => b
  | FileObj _ => true
  end.

(** [Array.prototype.includes] on primitives (SameValueZero); a [File]
    is compared by identity and is never an element of a literal list. *)
Definition sameValue (v w : value) : bool :=
  match v, w with
  | Undefined, Undefined | Null, Null => true
  | Str s, Str t => bool_decide (s = t)
  | Bool a, Bool b => Bool.eqb a b
  | _, _ => false
  end.

(** What a test function can throw. *)
Inductive exn : Type :=
| TypeError (what : string).

(** The result of code that may throw. *)
Inductive result (A : Type) : Type :=
| Ok (a : A)
| Throw (e : exn).
Arguments Ok {A} a.
Arguments Throw {A} e.

Definition bind {A B} (r : result A) (k : A -> result B) : result B :=
  match r with
  | Ok a => k a
  | Throw e => Throw e
  end.

(** A JavaScript object with string keys, in insertion order. *)
Abbreviation object := (list (string * value)).

Fixpoint get (o : object) (key : string) : value :=
  match o with
  | [] => Undefined
  | (k, v) :: o' => if String.eqb k key then v else get o' key
  end.

End Value.

Notation "'let*' x ':=' r 'in' k" := (Value.bind r (fun x => k))
  (at level 10, x name, r at level 100, k at level 200, only parsing).

(* ===================================================================== *)
(** ** Yup *)
(* ===================================================================== *)

(** The schema builders and the validation run of Yup 1.x, as far as the
    schemas of the repository use them.  Form values already have the type
    of their field, so the coercion step ([cast]) leaves them unchanged. *)

Module Yup.
Import Value.

(** A message is a literal, or a locale template [${path}...]. *)
Inductive message : Type :=
| Msg (text : string)
| Tmpl (suffix : string).

Definition render (path : string) (m : message) : string :=
  match m with
  | Msg text => text
  | Tmpl suffix => (path ++ suffix)%string
  end.

Definition orDefault (custom : option string) (dflt : message) : message :=
  match custom with
  | Some text => Msg text
  | None => dflt
  end.

(** **** Locale *)
Definition dquote : string := String (ascii_of_nat 34) EmptyString.

Definition locale_default : message := Tmpl " is invalid".
Definition locale_required : message := Tmpl " is a required field".
Definition locale_defined : message := Tmpl " must be defined".
Definition locale_notNull : message := Tmpl " cannot be null".
(** The type-error message, without the printed value that follows it. *)
Definition locale_notType (type : string) : message :=
  Tmpl (" must be a `" ++ type ++ "` type").
Definition locale_min (n : nat) : message :=
  Tmpl (" must be at least " ++ pretty n ++ " characters").
Definition locale_max (n : nat) : message :=
  Tmpl (" must be at most " ++ pretty n ++ " characters").
Definition locale_matches (source : string) : message :=
  Tmpl (" must match the following: " ++ dquote ++ source ++ dquote).
Definition locale_email : message := Tmpl " must be a valid email".

(** **** Tests *)
Record test : Type := mkTest {
  name : string;
  message_of : message;
  exclusive : bool;
  skipAbsent : bool;
  fn : value -> result bool
}.

(** The built-in presence and type checks, keyed as in [internalTests]. *)
Inductive internal : Type :=
| k_typeError
| k_nullable
| k_optionality
| k_whiteList.

Definition internal_eqb (a b : internal) : bool :=
  match a, b with
  | k_typeError, k_typeError | k_nullable, k_nullable
  | k_optionality, k_optionality | k_whiteList, k_whiteList => true
  | _, _ => false
  end.

Inductive schemaType : Type := TString | TBoolean | TMixed.

Definition typeName (t : schemaType) : string :=
  match t with
  | TString => "string"
  | TBoolean => "boolean"
  | TMixed => "mixed"
  end.

Definition typeCheck (t : schemaType) (v : value) : bool :=
  match t, v with
  | TString, Str _ => true
  | TBoolean, Bool _ => true
  | TMixed, _ => true
  | _, _ => false
  end.

Record schema : Type := mkSchema {
  type : schemaType;
  spec_nullable : bool;
  spec_optional : bool;
  _whitelist : list value;
  internalTests : list (internal * message);
  tests : list test
}.

(** Assigning a property of the [internalTests] object: an existing key
    keeps its position. *)
Fixpoint setInternal (k : internal) (m : message)
    (l : list (internal * message)) : list (internal * message) :=
  match l with
  | [] => [(k, m)]
  | (k', m') :: l' =>
      if internal_eqb k k' then (k, m) :: l'
      else (k', m') :: setInternal k m l'
  end.

(** [new Schema({type, check})]: the type check and [nonNullable()]. *)
Definition create (t : schemaType) : schema :=
  {| type := t; spec_nullable := false; spec_optional := true;
     _whitelist := [];
     internalTests := [(k_typeError, locale_notType (typeName t));
                       (k_nullable, locale_notNull)];
     tests := [] |}.

Definition nullability (b : bool) (m : message) (s : schema) : schema :=
  {| type := type s; spec_nullable := b; spec_optional := spec_optional s;
     _whitelist := _whitelist s;
     internalTests := setInternal k_nullable m (internalTests s);
     tests := tests s |}.

Definition optionalityOf (b : bool) (m : message) (s : schema) : schema :=
  {| type := type s; spec_nullable := spec_nullable s; spec_optional := b;
     _whitelist := _whitelist s;
     internalTests := setInternal k_optionality m (internalTests s);
     tests := tests s |}.

Definition nullable (s : schema) : schema := nullability true locale_default s.
Definition nonNullable (m : message) (s : schema) : schema := nullability false m s.
Definition defined (m : message) (s : schema) : schema := optionalityOf false m s.

(** [schema.test(opts)]: an exclusive test replaces the tests of its name. *)
Definition addTest (t : test) (s : schema) : schema :=
  {| type := type s; spec_nullable := spec_nullable s;
     spec_optional := spec_optional s; _whitelist := _whitelist s;
     internalTests := internalTests s;
     tests :=
       List.filter (fun u => negb (exclusive t && String.eqb (name u) (name t)))
                   (tests s) ++ [t] |}.

(** [schema.test(name, message, fn)] *)
Definition test_ (nm msg : string) (f : value -> result bool) (s : schema) : schema :=
  addTest {| name := nm; message_of := Msg msg; exclusive := false;
             skipAbsent := false; fn := f |} s.

(** [value.length], on what has one. *)
Definition lengthOf (v : value) : result (option nat) :=
  match v with
  | Str x => Ok (Some (length x))
  | Undefined | Null => Throw (TypeError "cannot read properties of an absent value")
  | _ => Ok None
  end.

Definition min (n : nat) (msg : option string) (s : schema) : schema :=
  addTest {| name := "min"; message_of := orDefault msg (locale_min n);
             exclusive := true; skipAbsent := true;
             fn := fun v => let* l := lengthOf v in
                            Ok (match l with Some k => n <=? k | None => false end) |} s.

Definition max (n : nat) (msg : option string) (s : schema) : schema :=
  addTest {| name := "max"; message_of := orDefault msg (locale_max n);
             exclusive := true; skipAbsent := true;
             fn := fun v => let* l := lengthOf v in
                            Ok (match l with Some k => k <=? n | None => false end) |} s.

(** A regular expression literal [/^body$/] with its source text. *)
Record regex : Type := { source : string; body : RegExp.re }.

(** [(value === '' && excludeEmptyString) || value.search(regex) !== -1] *)
Definition matchesFn (re : regex) (excludeEmptyString : bool) (v : value)
    : result bool :=
  match v with
  | Str x =>
      Ok (bool_decide (x = []) && excludeEmptyString
          || negb (RegExp.search (body re) x =? -1)%Z)
  | _ => Throw (TypeError "value.search is not a function")
  end.

Definition matchesWith (re : regex) (nm : string) (m : message)
    (excludeEmptyString : bool) (s : schema) : schema :=
  addTest {| name := nm; message_of := m; exclusive := false;
             skipAbsent := true; fn := matchesFn re excludeEmptyString |} s.

Definition matches (re : regex) (msg : option string) (s : schema) : schema :=
  matchesWith re "matches" (orDefault msg (locale_matches (source re))) false s.

(** The e-mail pattern of the HTML specification, as Yup spells it:
    [/^[a-zA-Z0-9.!#$%&'*+\/=?^_`{|}~-]+@[a-zA-Z0-9](?:[a-zA-Z0-9-]{0,61}[a-zA-Z0-9])?(?:\.[a-zA-Z0-9](?:[a-zA-Z0-9-]{0,61}[a-zA-Z0-9])?)*$/] *)
Definition isLocalChar (c : N) : bool :=
  RegExp.isAlnum c || RegExp.oneOfChars (JS.lit ".!#$%&'*+/=?^_`{|}~-") c.
Definition isLabelChar (c : N) : bool :=
  RegExp.isAlnum c || RegExp.isChar 45 c.
Definition label : RegExp.re :=
  RegExp.Seq (RegExp.Class RegExp.isAlnum)
    (RegExp.opt (RegExp.Seq (RegExp.upto 61 (RegExp.Class isLabelChar))
                            (RegExp.Class RegExp.isAlnum))).
Definition rEmail : regex :=
  {| source := "/^[a-zA-Z0-9.!#$%&'*+\/=?^_`{|}~-]+@[a-zA-Z0-9](?:[a-zA-Z0-9-]{0,61}[a-zA-Z0-9])?(?:\.[a-zA-Z0-9](?:[a-zA-Z0-9-]{0,61}[a-zA-Z0-9])?)*$/";
     body :=
       RegExp.Seq (RegExp.plus (RegExp.Class isLocalChar))
         (RegExp.Seq (RegExp.Class (RegExp.isChar 64))
            (RegExp.Seq label
               (RegExp.Star (RegExp.Seq (RegExp.Class (RegExp.isChar 46)) label)))) |}.

Definition email (msg : option string) (s : schema) : schema :=
  matchesWith rEmail "email" (orDefault msg locale_email) true s.

(** [required(message)] is [nonNullable(message).defined(message)]; a
    string schema adds the test [!!value.length]. *)
Definition required (msg : option string) (s : schema) : schema :=
  let m := orDefault msg locale_required in
  let s' := defined m (nonNullable m s) in
  match type s with
  | TString =>
      addTest {| name := "required"; message_of := m; exclusive := false;
                 skipAbsent := true;
                 fn := fun v => let* l := lengthOf v in
                                Ok (match l with Some k => negb (k =? 0) | None => false end) |} s'
  | _ => s'
  end.

(** [oneOf(enums, message)] *)
Definition oneOf (enums : list value) (msg : string) (s : schema) : schema :=
  {| type := type s; spec_nullable := spec_nullable s;
     spec_optional := spec_optional s;
     _whitelist := _whitelist s ++ enums;
     internalTests := setInternal k_whiteList (Msg msg) (internalTests s);
     tests := tests s |}.

(** **** Validation, with [abortEarly: false] *)

Definition internalCheck (s : schema) (k : internal) (v : value) : bool :=
  match k with
  | k_typeError => isAbsent v || typeCheck (type s) v
  | k_nullable => match v with Null => spec_nullable s | _ => true end
  | k_optionality => match v with Undefined => spec_optional s | _ => true end
  | k_whiteList => isAbsent v || existsb (sameValue v) (_whitelist s)
  end.

(** One test: skipped on an absent value when [skipAbsent]; a falsy result
    is an error with the test's message; an exception aborts the run. *)
Definition runTest (path : string) (t : test) (v : value) : result (list string) :=
  if skipAbsent t && isAbsent v then Ok []
  else
    let* ok := fn t v in
    Ok (if ok then [] else [render path (message_of t)]).

Fixpoint runTests (path : string) (ts : list test) (v : value)
    : result (list string) :=
  match ts with
  | [] => Ok []
  | t :: ts' =>
      let* e1 := runTest path t v in
      let* e2 := runTests path ts' v in
      Ok (e1 ++ e2)
  end.

Definition initialErrors (path : string) (s : schema) (v : value) : list string :=
  flat_map (fun km => if internalCheck s km.1 v then [] else [render path km.2])
           (internalTests s).

(** [schema._validate]: the internal tests run first and, when one of them
    fails, the other tests are not run. *)
Definition validate (path : string) (s : schema) (v : value)
    : result (list string) :=
  match initialErrors path s v with
  | [] => runTests path (tests s) v
  | errs => Ok errs
  end.

(** A leaf [ValidationError]. *)
Record ValidationError : Type := mkError { path : string; message_ : string }.

(** [Yup.object(shape)] *)
Abbreviation shape := (list (string * schema)).

(** An object schema validates every field (path = key) and collects the
    errors in the order of the shape. *)
Fixpoint validateObject (sh : shape) (o : object) : result (list ValidationError) :=
  match sh with
  | [] => Ok []
  | (key, s) :: sh' =>
      let* errs := validate key s (get o key) in
      let* rest := validateObject sh' o in
      Ok (map (mkError key) errs ++ rest)
  end.

(** [Yup.string()], [Yup.boolean()], [Yup.mixed()] *)
Definition string : schema := create TString.
Definition boolean : schema := create TBoolean.
Definition mixed : schema := create TMixed.

End Yup.

(** Method chaining: [s .> f] is [s.f(...)]. *)
Notation "s .> f" := (f s) (at level 45, left associativity, only parsing).

(* ===================================================================== *)
(** ** Formik *)
(* ===================================================================== *)

(** What Formik does with a [validationSchema]: it prepares the values,
    runs the schema with [abortEarly: false] and turns the error list into
    the [errors] object of the form. *)

Module Formik.

(** [values[key] !== '' ? values[key] : undefined] *)
Definition prepareValue (v : Value.value) : Value.value :=
  match v with
  | Value.Str [] => Value.Undefined
  | _ => v
  end.

(** [prepareDataForValidation]: an empty string becomes [undefined]. *)
Definition prepareDataForValidation (values : Value.object) : Value.object :=
  map (fun kv => (kv.1, prepareValue kv.2)) values.

(** [FormikErrors]: field name to message. *)
Abbreviation errors := (gmap string string).

(** [!getIn(errors, path)]: no entry, or an empty message. *)
Definition unset (e : errors) (path : string) : bool :=
  match e !! path with
  | None | Some EmptyString => true
  | Some _ => false
  end.

(** [if (!getIn(errors, err.path)) errors = setIn(errors, err.path, err.message)] *)
Definition keep (e : errors) (err : Yup.ValidationError) : errors :=
  if unset e (Yup.path err) then <[Yup.path err := Yup.message_ err]> e else e.

(** [yupToFormErrors]: the first message of every path. *)
Definition yupToFormErrors (inner : list Yup.ValidationError) : errors :=
  fold_left keep inner ∅.

(** The message of the first error of a path. *)
Fixpoint firstMessage (k : string) (inner : list Yup.ValidationError) : option string :=
  match inner with
  | [] => None
  | err :: rest =>
      if String.eqb (Yup.path err) k then Some (Yup.message_ err)
      else firstMessage k rest
  end.

(** The errors Yup reports for one path. *)
Definition errorsAt (k : string) (inner : list Yup.ValidationError)
    : list Yup.ValidationError :=
  List.filter (fun err => String.eqb (Yup.path err) k) inner.

(** The error list of a schema whose field [k] reports [f k]. *)
Definition fieldErrors (f : string -> option string) (keys : list string)
    : list Yup.ValidationError :=
  flat_map (fun k => map (Yup.mkError k) (option_list (f k))) keys.

(** The validation promise: resolved with the errors object, or rejected
    with an exception that is not a [ValidationError]. *)
Inductive outcome : Type :=
| Resolved (e : errors)
| Rejected (x : Value.exn).

(** [runValidationSchema] *)
Definition runValidationSchema (schema : Yup.shape) (values : Value.object) : outcome :=
  match Yup.validateObject schema (prepareDataForValidation values) with
  | Value.Ok [] => Resolved ∅
  | Value.Ok inner => Resolved (yupToFormErrors inner)
  | Value.Throw x => Rejected x
  end.

(** The run resolved and the errors object has entry [m] at [k]
    ([None]: no entry). *)
Definition entryIs (o : outcome) (k : string) (m : option string) : Prop :=
  exists e, o = Resolved e /\ e !! k = m.

(** [isValid]: [Object.keys(errors).length === 0] *)
Definition isValid (e : errors) : bool := size e =? 0.

End Formik.

(* ===================================================================== *)
(** ** The form records *)
(* ===================================================================== *)

Record ContactFormValues : Type := {
  companyName : JS.str;
  natureOfBusiness : JS.str;
  address : JS.str;
  postcode : JS.str;
  contactName : JS.str;
  contactPhone : JS.str;
  email : JS.str;
  linkedin : JS.str;
  idea : JS.str;
  file : option Value.File;
  nda : bool
}.

Record NewsletterFormValues : Type := {
  newsletterEmail : JS.str
}.

(** The values object Formik holds for a record. *)
Definition contactValues (r : ContactFormValues) : Value.object :=
  [ ("companyName", Value.Str (companyName r));
    ("natureOfBusiness", Value.Str (natureOfBusiness r));
    ("address", Value.Str (address r));
    ("postcode", Value.Str (postcode r));
    ("contactName", Value.Str (contactName r));
    ("contactPhone", Value.Str (contactPhone r));
    ("email", Value.Str (email r));
    ("linkedin", Value.Str (linkedin r));
    ("idea", Value.Str (idea r));
    ("file", match file r with Some f => Value.FileObj f | None => Value.Null end);
    ("nda", Value.Bool (nda r)) ].

Definition newsletterValues (r : NewsletterFormValues) : Value.object :=
  [ ("email", Value.Str (newsletterEmail r)) ].

(** [setFieldValue(field, value)], one constructor per field. *)
Inductive edit : Type :=
| SetCompanyName (s : JS.str)
| SetNatureOfBusiness (s : JS.str)
| SetAddress (s : JS.str)
| SetPostcode (s : JS.str)
| SetContactName (s : JS.str)
| SetContactPhone (s : JS.str)
| SetEmail (s : JS.str)
| SetLinkedin (s : JS.str)
| SetIdea (s : JS.str)
| SetFile (f : option Value.File)
| SetNda (b : bool).

Definition fieldOf (e : edit) : string :=
  match e with
  | SetCompanyName _ => "companyName"
  | SetNatureOfBusiness _ => "natureOfBusiness"
  | SetAddress _ => "address"
  | SetPostcode _ => "postcode"
  | SetContactName _ => "contactName"
  | SetContactPhone _ => "contactPhone"
  | SetEmail _ => "email"
  | SetLinkedin _ => "linkedin"
  | SetIdea _ => "idea"
  | SetFile _ => "file"
  | SetNda _ => "nda"
  end.

(** [setFieldValue]: [setIn(values, field, value)] *)
Definition setFieldValue (r : ContactFormValues) (e : edit) : ContactFormValues :=
  let '(Build_ContactFormValues cn nb ad pc na ph em li id fi nd) := r in
  match e with
  | SetCompanyName s => Build_ContactFormValues s nb ad pc na ph em li id fi nd
  | SetNatureOfBusiness s => Build_ContactFormValues cn s ad pc na ph em li id fi nd
  | SetAddress s => Build_ContactFormValues cn nb s pc na ph em li id fi nd
  | SetPostcode s => Build_ContactFormValues cn nb ad s na ph em li id fi nd
  | SetContactName s => Build_ContactFormValues cn nb ad pc s ph em li id fi nd
  | SetContactPhone s => Build_ContactFormValues cn nb ad pc na s em li id fi nd
  | SetEmail s => Build_ContactFormValues cn nb ad pc na ph s li id fi nd
  | SetLinkedin s => Build_ContactFormValues cn nb ad pc na ph em s id fi nd
  | SetIdea s => Build_ContactFormValues cn nb ad pc na ph em li s fi nd
  | SetFile f => Build_ContactFormValues cn nb ad pc na ph em li id f nd
  | SetNda b => Build_ContactFormValues cn nb ad pc na ph em li id fi b
  end.

(** The test functions the components pass to [.test]. *)

(** [(value) => !!value && value.trim().split(" ").length >= 2] *)
Definition fullName (v : Value.value) : Value.result bool :=
  if Value.truthy v then
    match v with
    | Value.Str s => Value.Ok (2 <=? length (JS.split JS.SPACE (JS.trim s)))
    | _ => Value.Throw (Value.TypeError "value.trim is not a function")
    end
  else Value.Ok false.

(** [(value) => { if (!value) return true;
                  return value instanceof File && value.size <= 10 * 1024 * 1024; }] *)
Definition fileSize (v : Value.value) : Value.result bool :=
  if negb (Value.truthy v) then Value.Ok true
  else
    match v with
    | Value.FileObj f => Value.Ok (Value.size f <=? 10 * 1024 * 1024)%N
    | _ => Value.Ok false
    end.

(** [/^\d{4,10}$/], [/^\d{10,}$/], [/^\d+$/], [/^\S+\s+\S+$/] *)
Definition re_postcode : Yup.regex :=
  {| Yup.source := "/^\d{4,10}$/"; Yup.body := RegExp.range 4 10 RegExp.digit |}.
Definition re_phone : Yup.regex :=
  {| Yup.source := "/^\d{10,}$/"; Yup.body := RegExp.atLeast 10 RegExp.digit |}.
Definition re_digits : Yup.regex :=
  {| Yup.source := "/^\d+$/"; Yup.body := RegExp.plus RegExp.digit |}.
Definition re_two_words : Yup.regex :=
  {| Yup.source := "/^\S+\s+\S+$/";
     Yup.body := RegExp.Seq (RegExp.plus RegExp.nonspace)
                   (RegExp.Seq (RegExp.plus RegExp.space)
                               (RegExp.plus RegExp.nonspace)) |}.

(* ===================================================================== *)
(** ** src/components/ContactForm.tsx *)
(* ===================================================================== *)

Module ContactForm.

Definition contactSchema : Yup.shape :=
  [ ("companyName",
      Yup.string
        .> Yup.min 2 (Some "Company name must be at least 2 characters")
        .> Yup.required (Some "Company name is required"));
    ("natureOfBusiness", Yup.string);
    ("address",
      Yup.string
        .> Yup.min 5 (Some "Address must be at least 5 characters")
        .> Yup.required (Some "Address is required"));
    ("postcode",
      Yup.string
        .> Yup.matches re_postcode (Some "Postcode must be 4–10 digits")
        .> Yup.required (Some "Postcode is required"));
    ("contactName",
      Yup.string
        .> Yup.test_ "full-name" "Please enter at least first and last name" fullName
        .> Yup.required (Some "Contact name is required"));
    ("contactPhone",
      Yup.string
        .> Yup.matches re_phone (Some "Contact phone must be at least 10 digits")
        .> Yup.required (Some "Contact phone is required"));
    ("email",
      Yup.string
        .> Yup.email (Some "Invalid email address")
        .> Yup.required (Some "Email is required"));
    ("linkedin", Yup.string);
    ("idea",
      Yup.string
        .> Yup.min 30 (Some "Idea description must be at least 30 characters")
        .> Yup.required (Some "Idea is required"));
    ("file",
      Yup.mixed
        .> Yup.nullable
        .> Yup.test_ "fileSize" "File size is too large (max 10MB)" fileSize);
    ("nda",
      Yup.boolean
        .> Yup.oneOf [Value.Bool true] "You must agree to NDA"
        .> Yup.required (Some "You must agree to NDA")) ].

Definition newsletterSchema : Yup.shape :=
  [ ("email",
      Yup.string
        .> Yup.email (Some "Invalid email")
        .> Yup.required (Some "Email is required")) ].

(** The validators of the two [<Formik validationSchema=...>] forms. *)
Definition validateContact (r : ContactFormValues) : Formik.outcome :=
  Formik.runValidationSchema contactSchema (contactValues r).

Definition validateNewsletter (r : NewsletterFormValues) : Formik.outcome :=
  Formik.runValidationSchema newsletterSchema (newsletterValues r).

End ContactForm.

(* ===================================================================== *)
(** ** The second copy of the component (useFormik hooks) *)
(* ===================================================================== *)

(** The hook-based [ContactForm] declares its own [contactSchema] and
    [newsletterSchema]; [postcode] and [contactPhone] are only required
    there, and the newsletter schema uses the locale messages. *)

Module ContactFormHooks.

Definition contactSchema : Yup.shape :=
  [ ("companyName",
      Yup.string
        .> Yup.min 2 (Some "Company name must be at least 2 characters")
        .> Yup.required (Some "Company name is required"));
    ("natureOfBusiness", Yup.string);
    ("address",
      Yup.string
        .> Yup.min 5 (Some "Address must be at least 5 characters")
        .> Yup.required (Some "Address is required"));
    ("postcode", Yup.string .> Yup.required (Some "Postcode is required"));
    ("contactName",
      Yup.string
        .> Yup.test_ "full-name" "Please enter at least first and last name" fullName
        .> Yup.required (Some "Contact name is required"));
    ("contactPhone", Yup.string .> Yup.required (Some "Contact phone is required"));
    ("email",
      Yup.string
        .> Yup.email (Some "Invalid email address")
        .> Yup.required (Some "Email is required"));
    ("linkedin", Yup.string);
    ("idea",
      Yup.string
        .> Yup.min 30 (Some "Idea description must be at least 30 characters")
        .> Yup.required (Some "Idea is required"));
    ("file",
      Yup.mixed
        .> Yup.nullable
        .> Yup.test_ "fileSize" "File size is too large (max 10MB)" fileSize);
    ("nda",
      Yup.boolean
        .> Yup.oneOf [Value.Bool true] "You must agree to NDA"
        .> Yup.required (Some "You must agree to NDA")) ].

Definition newsletterSchema : Yup.shape :=
  [ ("email", Yup.string .> Yup.email None .> Yup.required None) ].

Definition validateContact (r : ContactFormValues) : Formik.outcome :=
  Formik.runValidationSchema contactSchema (contactValues r).

Definition validateNewsletter (r : NewsletterFormValues) : Formik.outcome :=
  Formik.runValidationSchema newsletterSchema (newsletterValues r).

End ContactFormHooks.

(* ===================================================================== *)
(** ** src/validation/contactSchema.ts and the newsletter schema module *)
(* ===================================================================== *)

(** The exported schemas; neither component imports them.  The contact
    schema has a field [protectData] where the components have [nda], and
    no [file]. *)

Module Validation.

Definition contactSchema : Yup.shape :=
  [ ("companyName", Yup.string .> Yup.min 2 None .> Yup.required None);
    ("natureOfBusiness", Yup.string);
    ("address", Yup.string .> Yup.min 5 None .> Yup.required None);
    ("postcode",
      Yup.string .> Yup.matches re_digits None .> Yup.min 4 None
        .> Yup.max 10 None .> Yup.required None);
    ("contactName", Yup.string .> Yup.matches re_two_words None .> Yup.required None);
    ("contactPhone", Yup.string .> Yup.matches re_phone None .> Yup.required None);
    ("email", Yup.string .> Yup.email None .> Yup.required None);
    ("linkedin", Yup.string);
    ("idea", Yup.string .> Yup.min 30 None .> Yup.required None);
    ("protectData", Yup.boolean .> Yup.oneOf [Value.Bool true] "Required") ].

Definition newsletterSchema : Yup.shape :=
  [ ("email", Yup.string .> Yup.email (Some "Invalid email") .> Yup.required (Some "Required")) ].

End Validation.

(* ===================================================================== *)
(** ** The form session *)
(* ===================================================================== *)

(** Formik keeps the values, the errors of the last validation run, the
    touched fields and the number of submit attempts.  With the default
    [validateOnChange] and [validateOnBlur] every change, blur and submit
    re-validates the current values and replaces the errors wholesale. *)

Module Session.

Record state : Type := {
  values : ContactFormValues;
  errors : gmap string string;
  touched : gset string;
  submitCount : nat
}.

Inductive event : Type :=
| Change (e : edit)
| Blur (field : string)
| Submit.

Definition allFields : gset string :=
  list_to_set (map fst ContactForm.contactSchema).

(** A validation run: [SET_ERRORS] with the resolved errors; a rejected
    run leaves the errors as they were. *)
Definition revalidate (old : gmap string string) (v : ContactFormValues)
    : gmap string string :=
  match ContactForm.validateContact v with
  | Formik.Resolved e => e
  | Formik.Rejected _ => old
  end.

Definition step (st : state) (ev : event) : state :=
  match ev with
  | Change e =>
      let v := setFieldValue (values st) e in
      {| values := v; errors := revalidate (errors st) v;
         touched := touched st; submitCount := submitCount st |}
  | Blur field =>
      {| values := values st; errors := revalidate (errors st) (values st);
         touched := {[ field ]} ∪ touched st; submitCount := submitCount st |}
  | Submit =>
      {| values := values st; errors := revalidate (errors st) (values st);
         touched := allFields; submitCount := S (submitCount st) |}
  end.

Definition run (st : state) (evs : list event) : state := fold_left step evs st.

(** [initialValues] of the contact form. *)
Definition initialValues : ContactFormValues :=
  {| companyName := []; natureOfBusiness := []; address := []; postcode := [];
     contactName := []; contactPhone := []; email := []; linkedin := [];
     idea := []; file := None; nda := false |}.

Definition initialState : state :=
  {| values := initialValues; errors := ∅; touched := ∅; submitCount := 0 |}.

End Session.

(* ===================================================================== *)
(** ** The rule table *)
(* ===================================================================== *)

(** What every field of a record reports, written as the table of the
    specification: one required message and one shape message per field. *)

Module Rules.

(** The maximal runs of non-whitespace characters of a string: its
    whitespace-separated tokens. *)
Fixpoint tokensFrom (cur : JS.str) (s : JS.str) : list JS.str :=
  match s with
  | [] => match cur with [] => [] | _ => [rev cur] end
  | c :: s' =>
      if JS.isWhiteSpace c
      then match cur with [] => tokensFrom [] s' | _ => rev cur :: tokensFrom [] s' end
      else tokensFrom (c :: cur) s'
  end.

Definition tokens (s : JS.str) : list JS.str := tokensFrom [] s.

(** The contact-name rule in the words of the specification: the trimmed
    value splits on whitespace into at least two tokens. *)
Definition twoTokens (s : JS.str) : bool := 2 <=? length (tokens (JS.trim s)).

(** The contact-name rule of the components: the trimmed value splits on
    the space character into at least two pieces. *)
Definition twoPieces (s : JS.str) : bool :=
  2 <=? length (JS.split JS.SPACE (JS.trim s)).

Definition isEmail (s : JS.str) : bool := RegExp.matches (Yup.body Yup.rEmail) s.

Definition digits (s : JS.str) : bool := forallb RegExp.isDigit s.

(** A decimal digit: [0] to [9]. *)
Definition decimalDigit (c : N) : Prop := (48 <= c <= 57)%N.

(** A required field with one shape rule: the required message on an empty
    value, the shape message on a non-empty value that fails the rule. *)
Definition requiredAnd (x : JS.str) (required : string) (ok : bool) (shape : string)
    : option string :=
  match x with
  | [] => Some required
  | _ => if ok then None else Some shape
  end.

(** A row of the rule table for a field with a required check and a shape
    or length check. *)
Record shapeRule : Type := {
  field : string;
  value : JS.str;
  requiredMessage : string;
  shapeOk : bool;
  shapeMessage : string
}.

(** The seven fields that have both checks. *)
Definition shapeRules (r : ContactFormValues) : list shapeRule :=
  [ {| field := "companyName"; value := companyName r;
       requiredMessage := "Company name is required";
       shapeOk := 2 <=? length (companyName r);
       shapeMessage := "Company name must be at least 2 characters" |};
    {| field := "address"; value := address r;
       requiredMessage := "Address is required";
       shapeOk := 5 <=? length (address r);
       shapeMessage := "Address must be at least 5 characters" |};
    {| field := "postcode"; value := postcode r;
       requiredMessage := "Postcode is required";
       shapeOk := (4 <=? length (postcode r)) && (length (postcode r) <=? 10)
                  && digits (postcode r);
       shapeMessage := "Postcode must be 4–10 digits" |};
    {| field := "contactName"; value := contactName r;
       requiredMessage := "Contact name is required";
       shapeOk := twoPieces (contactName r);
       shapeMessage := "Please enter at least first and last name" |};
    {| field := "contactPhone"; value := contactPhone r;
       requiredMessage := "Contact phone is required";
       shapeOk := (10 <=? length (contactPhone r)) && digits (contactPhone r);
       shapeMessage := "Contact phone must be at least 10 digits" |};
    {| field := "email"; value := email r;
       requiredMessage := "Email is required";
       shapeOk := isEmail (email r);
       shapeMessage := "Invalid email address" |};
    {| field := "idea"; value := idea r;
       requiredMessage := "Idea is required";
       shapeOk := 30 <=? length (idea r);
       shapeMessage := "Idea description must be at least 30 characters" |} ].

(** The error entry of every field of a contact record. *)
Definition contactError (r : ContactFormValues) (field : string) : option string :=
  if String.eqb field "companyName" then
    requiredAnd (companyName r) "Company name is required"
      (2 <=? length (companyName r)) "Company name must be at least 2 characters"
  else if String.eqb field "address" then
    requiredAnd (address r) "Address is required"
      (5 <=? length (address r)) "Address must be at least 5 characters"
  else if String.eqb field "postcode" then
    requiredAnd (postcode r) "Postcode is required"
      ((4 <=? length (postcode r)) && (length (postcode r) <=? 10) && digits (postcode r))
      "Postcode must be 4–10 digits"
  else if String.eqb field "contactName" then
    requiredAnd (contactName r) "Contact name is required"
      (twoPieces (contactName r)) "Please enter at least first and last name"
  else if String.eqb field "contactPhone" then
    requiredAnd (contactPhone r) "Contact phone is required"
      ((10 <=? length (contactPhone r)) && digits (contactPhone r))
      "Contact phone must be at least 10 digits"
  else if String.eqb field "email" then
    requiredAnd (email r) "Email is required"
      (isEmail (email r)) "Invalid email address"
  else if String.eqb field "idea" then
    requiredAnd (idea r) "Idea is required"
      (30 <=? length (idea r)) "Idea description must be at least 30 characters"
  else if String.eqb field "file" then
    match file r with
    | None => None
    | Some f =>
        if (Value.size f <=? 10 * 1024 * 1024)%N then None
        else Some "File size is too large (max 10MB)"
    end
  else if String.eqb field "nda" then
    if nda r then None else Some "You must agree to NDA"
  else None.

(** The entries of the hook-based copy: [postcode] and [contactPhone] are
    only required. *)
Definition hooksContactError (r : ContactFormValues) (field : string) : option string :=
  if String.eqb field "postcode" then
    requiredAnd (postcode r) "Postcode is required" true EmptyString
  else if String.eqb field "contactPhone" then
    requiredAnd (contactPhone r) "Contact phone is required" true EmptyString
  else contactError r field.

(** The error entry of the newsletter record. *)
Definition newsletterError (r : NewsletterFormValues) (field : string) : option string :=
  if String.eqb field "email" then
    requiredAnd (newsletterEmail r) "Email is required"
      (isEmail (newsletterEmail r)) "Invalid email"
  else None.

(** The entry of the hook-based newsletter form: the locale messages. *)
Definition hooksNewsletterError (r : NewsletterFormValues) (field : string)
    : option string :=
  if String.eqb field "email" then
    requiredAnd (newsletterEmail r) "email is a required field"
      (isEmail (newsletterEmail r)) "email must be a valid email"
  else None.

(** The eleven fields of a contact record. *)
Definition contactFields : list string :=
  [ "companyName"; "natureOfBusiness"; "address"; "postcode"; "contactName";
    "contactPhone"; "email"; "linkedin"; "idea"; "file"; "nda" ].

End Rules.

(* ===================================================================== *)
(** ** Sample records *)
(* ===================================================================== *)

Module Samples.

(** The end-to-end record of the specification. *)
Definition joLee : ContactFormValues :=
  {| companyName := JS.lit "Ac";
     natureOfBusiness := [];
     address := JS.lit "123 Main St";
     postcode := JS.lit "12345";
     contactName := JS.lit "Jo Lee";
     contactPhone := JS.lit "1234567890";
     email := JS.lit "jo@x.com";
     linkedin := [];
     idea := repeat 120%N 30;
     file := None;
     nda := true |}.

(** The same record with a one-letter company name. *)
Definition joLeeShortCompany : ContactFormValues :=
  setFieldValue joLee (SetCompanyName (JS.lit "A")).

(** [Jane], a tab, [Doe]. *)
Definition janeTabDoe : JS.str := JS.lit "Jane" ++ [9%N] ++ JS.lit "Doe".

(** [Jane], a no-break space, [Doe]. *)
Definition janeNbspDoe : JS.str := JS.lit "Jane" ++ [160%N] ++ JS.lit "Doe".

(** The end-to-end record with that contact name. *)
Definition joLeeNbsp : ContactFormValues :=
  setFieldValue joLee (SetContactName janeNbspDoe).

(** The end-to-end record with the tab-separated contact name. *)
Definition joLeeTabbed : ContactFormValues :=
  setFieldValue joLee (SetContactName janeTabDoe).

(** The end-to-end record with a three-digit postcode. *)
Definition joLeeShortPostcode : ContactFormValues :=
  setFieldValue joLee (SetPostcode (JS.lit "123")).

Definition MiB10 : Value.File := {| Value.size := 10 * 1024 * 1024 |}.
Definition MiB10plus1 : Value.File := {| Value.size := 10 * 1024 * 1024 + 1 |}.

End Samples.

(* ===================================================================== *)
(** ** Calling the exported schemas *)
(* ===================================================================== *)

(** No form of the repository uses the schemas of [src/validation]; a
    caller validates a plain object with them.  [schema.isValid(value)] is
    true when validation reports no error, false when it reports one, and
    rethrows what is not a [ValidationError]. *)

Module Exported.

(** The object [contactSchema] of [src/validation/contactSchema.ts]
    describes; [protectData] is not required, so it may be absent. *)
Record values : Type := {
  companyName : JS.str;
  natureOfBusiness : JS.str;
  address : JS.str;
  postcode : JS.str;
  contactName : JS.str;
  contactPhone : JS.str;
  email : JS.str;
  linkedin : JS.str;
  idea : JS.str;
  protectData : option bool
}.

Definition object (v : values) : Value.object :=
  [ ("companyName", Value.Str (companyName v));
    ("natureOfBusiness", Value.Str (natureOfBusiness v));
    ("address", Value.Str (address v));
    ("postcode", Value.Str (postcode v));
    ("contactName", Value.Str (contactName v));
    ("contactPhone", Value.Str (contactPhone v));
    ("email", Value.Str (email v));
    ("linkedin", Value.Str (linkedin v));
    ("idea", Value.Str (idea v)) ]
  ++ match protectData v with
     | Some b => [ ("protectData", Value.Bool b) ]
     | None => []
     end.

(** [schema.isValid(value)] *)
Definition isValid (schema : Yup.shape) (o : Value.object) : Value.result bool :=
  let* errs := Yup.validateObject schema o in
  Value.Ok (match errs with [] => true | _ :: _ => false end).

(** The schema of one key of a shape. *)
Fixpoint reach (schema : Yup.shape) (key : string) : option Yup.schema :=
  match schema with
  | [] => None
  | (k, s) :: rest => if String.eqb k key then Some s else reach rest key
  end.

(** What the schema of [key] reports for a value; an object schema
    validates the keys of its shape only. *)
Definition check (schema : Yup.shape) (key : string) (v : Value.value)
    : Value.result (list string) :=
  match reach schema key with
  | Some s => Yup.validate key s v
  | None => Value.Ok []
  end.

(** A word: one or more characters, none of them whitespace. *)
Definition word (s : JS.str) : Prop :=
  s <> [] /\ forallb RegExp.isNonSpace s = true.

(** A gap: one or more whitespace characters. *)
Definition gap (s : JS.str) : Prop :=
  s <> [] /\ forallb JS.isWhiteSpace s = true.

(** Two words with a gap between them and nothing around them. *)
Definition twoWords (s : JS.str) : Prop :=
  exists a w b, s = a ++ w ++ b /\ word a /\ gap w /\ word b.

End Exported.

(* ===================================================================== *)
(** ** The rendered form *)
(* ===================================================================== *)

(** What the two components add to their schema: the inputs that report a
    blur, the file picker, the error lines they render, the submit button
    and the submit handler.  The validation run an action starts has
    finished before the next action is taken. *)

Module Form.

(** What differs between the two copies: the schema, and the inputs that
    have an [onBlur] handler. *)
Record component : Type := {
  validate : ContactFormValues -> Formik.outcome;
  blurable : list string
}.

(** ContactForm.tsx: every [<Field>] reports its blur, the checkbox
    included; the file input is a plain [<input>] with [onChange] only. *)
Definition contactForm : component :=
  {| validate := ContactForm.validateContact;
     blurable := [ "companyName"; "natureOfBusiness"; "address"; "postcode";
                   "contactName"; "contactPhone"; "email"; "linkedin"; "idea";
                   "nda" ]%string |}.

(** The hook-based copy: the text inputs have [onBlur={formik.handleBlur}];
    the file input and the checkbox have [onChange] only. *)
Definition hooksForm : component :=
  {| validate := ContactFormHooks.validateContact;
     blurable := [ "companyName"; "natureOfBusiness"; "address"; "postcode";
                   "contactName"; "contactPhone"; "email"; "linkedin";
                   "idea" ]%string |}.

(** [e.currentTarget.files?.[0] || null] *)
Definition pickFile (files : option (list Value.File)) : option Value.File :=
  match files with
  | Some (f :: _) => Some f
  | _ => None
  end.

(** The session of a form and the records its [onSubmit] was called
    with, latest first. *)
Record state : Type := {
  session : Session.state;
  submitted : list ContactFormValues
}.

Inductive action : Type :=
| Edit (e : edit)
| PickFiles (files : option (list Value.File))
| Leave (field : string)
| PressSubmit.

(** A validation run of the component. *)
Definition revalidate (c : component) (old : gmap string string)
    (v : ContactFormValues) : gmap string string :=
  match validate c v with
  | Formik.Resolved e => e
  | Formik.Rejected _ => old
  end.

Definition change (c : component) (st : state) (e : edit) : state :=
  let s := session st in
  let v := setFieldValue (Session.values s) e in
  {| session := {| Session.values := v;
                   Session.errors := revalidate c (Session.errors s) v;
                   Session.touched := Session.touched s;
                   Session.submitCount := Session.submitCount s |};
     submitted := submitted st |}.

(** [disabled={!isValid}] *)
Definition submitDisabled (st : state) : bool :=
  negb (Formik.isValid (Session.errors (session st))).

(** [submitForm]: every field becomes touched, the values are validated,
    and [onSubmit] is called when the run reports no error. *)
Definition submitForm (c : component) (st : state) : state :=
  let s := session st in
  {| session := {| Session.values := Session.values s;
                   Session.errors := revalidate c (Session.errors s) (Session.values s);
                   Session.touched := Session.allFields;
                   Session.submitCount := S (Session.submitCount s) |};
     submitted :=
       match validate c (Session.values s) with
       | Formik.Resolved e =>
           if Formik.isValid e then Session.values s :: submitted st
           else submitted st
       | Formik.Rejected _ => submitted st
       end |}.

Definition step (c : component) (st : state) (a : action) : state :=
  match a with
  | Edit e => change c st e
  | PickFiles files => change c st (SetFile (pickFile files))
  | Leave field =>
      if bool_decide (field ∈ blurable c) then
        let s := session st in
        {| session := {| Session.values := Session.values s;
                         Session.errors :=
                           revalidate c (Session.errors s) (Session.values s);
                         Session.touched := {[ field ]} ∪ Session.touched s;
                         Session.submitCount := Session.submitCount s |};
           submitted := submitted st |}
      else st
  | PressSubmit =>
      if submitDisabled st then st else submitForm c st
  end.

Definition run (c : component) (st : state) (actions : list action) : state :=
  fold_left (step c) actions st.

Definition initial : state :=
  {| session := Session.initialState; submitted := [] |}.

(** The fields with an error line: [companyName], [address], [postcode],
    [contactName], [contactPhone], [email], [idea] and [nda]. *)
Definition errorLines : list string :=
  [ "companyName"; "address"; "postcode"; "contactName"; "contactPhone";
    "email"; "idea"; "nda" ]%string.

(** [touched[name] && errors[name]]: the line of one field. *)
Definition errorLine (st : state) (name : string) : option string :=
  if bool_decide (name ∈ Session.touched (session st)) then
    match Session.errors (session st) !! name with
    | Some (String c m) => Some (String c m)
    | _ => None
    end
  else None.

(** The error lines on the screen, top to bottom. *)
Definition rendered (st : state) : list (string * string) :=
  omap (fun name => pair name <$> errorLine st name) errorLines.

(** What the states of a run have in common: [onSubmit] has seen valid
    records only; once the state has left the initial one, the stored
    errors are those of the stored values; a touched field was blurred or a
    submit was attempted. *)
Record invariant (c : component) (st : state) : Prop := {
  inv_submitted :
    Forall (fun v => validate c v = Formik.Resolved ∅) (submitted st);
  inv_errors :
    session st = Session.initialState \/
    forall e, validate c (Session.values (session st)) = Formik.Resolved e ->
              Session.errors (session st) = e;
  inv_touched :
    forall k, k ∈ Session.touched (session st) ->
              k ∈ blurable c \/ 0 < Session.submitCount (session st)
}.

(** Typing the end-to-end record into the form. *)
Definition fillIn : list action :=
  [ Edit (SetCompanyName (companyName Samples.joLee));
    Edit (SetAddress (address Samples.joLee));
    Edit (SetPostcode (postcode Samples.joLee));
    Edit (SetContactName (contactName Samples.joLee));
    Edit (SetContactPhone (contactPhone Samples.joLee));
    Edit (SetEmail (email Samples.joLee));
    Edit (SetIdea (idea Samples.joLee));
    Edit (SetNda true) ].

End Form.
(* ===================================================================== *)
(** * Properties *)
(* ===================================================================== *)

(** ** The matcher decides the matched language *)

Module RegExpFacts.
Import RegExp.

#[local] Hint Constructors lang : core.

Lemma lang_Never s : ~ lang Never s.
Proof. intros H; inversion H. Qed.

Lemma lang_Empty s : lang Empty s <-> s = [].
Proof. split; [intros H; now inversion H | intros ->; constructor]. Qed.

Lemma lang_Class p s : lang (Class p) s <-> exists c, s = [c] /\ p c = true.
Proof.
  split.
  - intros H; inversion H; subst; eauto.
  - intros (c & -> & Hc); now constructor.
Qed.

Lemma lang_Seq a b s :
  lang (Seq a b) s <-> exists s1 s2, s = s1 ++ s2 /\ lang a s1 /\ lang b s2.
Proof.
  split.
  - intros H; inversion H; subst; eauto.
  - intros (s1 & s2 & -> & H1 & H2); now constructor.
Qed.

Lemma lang_Alt a b s : lang (Alt a b) s <-> lang a s \/ lang b s.
Proof.
  split.
  - intros H; inversion H; subst; auto.
  - intros [H | H]; auto.
Qed.

Lemma lang_seq a b s : lang (seq a b) s <-> lang (Seq a b) s.
Proof.
  rewrite lang_Seq.
  destruct a, b; simpl; try (rewrite lang_Seq; reflexivity);
    split; intros H;
    try (exfalso; eapply lang_Never; eassumption);
    try (destruct H as (s1 & s2 & _ & H1 & H2); exfalso;
         (eapply lang_Never; eassumption));
    try (exists [], s; repeat split; auto; fail);
    try (destruct H as (s1 & s2 & -> & H1 & H2);
         apply lang_Empty in H1; subst; exact H2).
Qed.

Lemma lang_alt a b s : lang (alt a b) s <-> lang (Alt a b) s.
Proof.
  rewrite lang_Alt.
  destruct a, b; simpl; try (rewrite lang_Alt; reflexivity);
    split; intros H; auto;
    try (exfalso; eapply lang_Never; eassumption);
    try (destruct H as [H | H]; auto; exfalso; eapply lang_Never; eassumption).
Qed.

Lemma nullable_lang r : nullable r = true <-> lang r [].
Proof.
  induction r; simpl.
  - split; [discriminate | intros H; inversion H].
  - split; auto.
  - split; [discriminate | intros H; inversion H].
  - rewrite andb_true_iff, IHr1, IHr2, lang_Seq. split.
    + intros [H1 H2]. exists [], []. auto.
    + intros (s1 & s2 & E & H1 & H2). symmetry in E.
      apply app_eq_nil in E as [-> ->]. auto.
  - rewrite orb_true_iff, IHr1, IHr2, lang_Alt. reflexivity.
  - split; auto.
Qed.

(** A non-empty word of [a*] starts with a non-empty word of [a]. *)
Lemma lang_Star_cons a c s :
  lang (Star a) (c :: s) ->
  exists s1 s2, s = s1 ++ s2 /\ lang a (c :: s1) /\ lang (Star a) s2.
Proof.
  intros H. remember (Star a) as r eqn:Er. remember (c :: s) as w eqn:Ew.
  revert a c s Er Ew.
  induction H; intros a0 c0 s0 Er Ew; try discriminate.
  injection Er as ->.
  destruct s1 as [| d s1'].
  - simpl in Ew. eapply IHlang2; eauto.
  - simpl in Ew. injection Ew as -> <-. eauto.
Qed.

Lemma deriv_lang c r s : lang (deriv c r) s <-> lang r (c :: s).
Proof.
  revert s. induction r; intros s; simpl.
  - split; intros H; inversion H.
  - split; intros H; inversion H.
  - destruct (p c) eqn:Hp.
    + rewrite lang_Empty. split.
      * intros ->. now constructor.
      * intros H; inversion H; reflexivity.
    + split; intros H; inversion H; subst; congruence.
  - assert (Hseq : lang (seq (deriv c r1) r2) s <->
                   exists s1 s2, s = s1 ++ s2 /\ lang r1 (c :: s1) /\ lang r2 s2).
    { rewrite lang_seq, lang_Seq. split.
      - intros (s1 & s2 & -> & H1 & H2). exists s1, s2.
        rewrite <- IHr1. auto.
      - intros (s1 & s2 & -> & H1 & H2). exists s1, s2.
        rewrite IHr1. auto. }
    destruct (nullable r1) eqn:Hn.
    + rewrite lang_alt, lang_Alt, Hseq, IHr2, lang_Seq. split.
      * intros [(s1 & s2 & -> & H1 & H2) | H].
        -- exists (c :: s1), s2. auto.
        -- exists [], (c :: s). split; [reflexivity|]. split; [|exact H].
           now apply nullable_lang.
      * intros (s1 & s2 & E & H1 & H2). destruct s1 as [| d s1'].
        -- simpl in E. subst s2. now right.
        -- simpl in E. injection E as <- ->. left. eauto.
    + rewrite Hseq, lang_Seq. split.
      * intros (s1 & s2 & -> & H1 & H2). exists (c :: s1), s2. auto.
      * intros (s1 & s2 & E & H1 & H2). destruct s1 as [| d s1'].
        -- apply nullable_lang in H1. congruence.
        -- simpl in E. injection E as <- ->. eauto.
  - rewrite lang_alt, !lang_Alt, IHr1, IHr2. reflexivity.
  - rewrite lang_seq, lang_Seq. split.
    + intros (s1 & s2 & -> & H1 & H2). apply IHr in H1.
      change (c :: s1 ++ s2) with ((c :: s1) ++ s2). now constructor.
    + intros H. apply lang_Star_cons in H as (s1 & s2 & -> & H1 & H2).
      exists s1, s2. rewrite IHr. auto.
Qed.

(** The matcher decides the language. *)
Theorem matches_lang r s : matches r s = true <-> lang r s.
Proof.
  revert r. induction s as [| c s IH]; intros r; simpl.
  - apply nullable_lang.
  - rewrite IH. apply deriv_lang.
Qed.

(** *** Bounded repetitions of a character class *)

Lemma lang_times_class p n s :
  lang (times n (Class p)) s <-> length s = n /\ forallb p s = true.
Proof.
  revert s. induction n as [| n IH]; intros s; simpl.
  - rewrite lang_Empty. split.
    + intros ->. auto.
    + intros [H _]. now destruct s.
  - rewrite lang_Seq. split.
    + intros (s1 & s2 & -> & H1 & H2).
      apply lang_Class in H1 as (c & -> & Hc). apply IH in H2 as [Hl Hf].
      simpl. rewrite Hc, Hl. auto.
    + intros [Hl Hf]. destruct s as [| c s]; [discriminate|].
      simpl in Hl, Hf. apply andb_true_iff in Hf as [Hc Hf].
      exists [c], s. split; [reflexivity|]. split; [now constructor|].
      apply IH. split; [lia | exact Hf].
Qed.

Lemma lang_upto_class p n s :
  lang (upto n (Class p)) s <-> length s <= n /\ forallb p s = true.
Proof.
  revert s. induction n as [| n IH]; intros s; simpl.
  - rewrite lang_Empty. split.
    + intros ->. auto.
    + intros [H _]. destruct s; [reflexivity | simpl in H; lia].
  - unfold opt. rewrite lang_Alt, lang_Empty, lang_Seq. split.
    + intros [-> | (s1 & s2 & -> & H1 & H2)].
      * simpl. split; [lia | reflexivity].
      * apply lang_Class in H1 as (c & -> & Hc). apply IH in H2 as [Hl Hf].
        simpl. rewrite Hc. split; [lia | exact Hf].
    + intros [Hl Hf]. destruct s as [| c s]; [now left | right].
      simpl in Hl, Hf. apply andb_true_iff in Hf as [Hc Hf].
      exists [c], s. split; [reflexivity|]. split; [now constructor|].
      apply IH. split; [lia | exact Hf].
Qed.

Lemma lang_star_class p s :
  lang (Star (Class p)) s <-> forallb p s = true.
Proof.
  split.
  - induction s as [| c s IH]; intros H; [reflexivity|].
    apply lang_Star_cons in H as (s1 & s2 & -> & H1 & H2).
    apply lang_Class in H1 as (d & E & Hd). injection E as -> ->.
    simpl. rewrite Hd. now apply IH.
  - induction s as [| c s IH]; intros H; [constructor|].
    simpl in H. apply andb_true_iff in H as [Hc Hf].
    change (c :: s) with ([c] ++ s). constructor; [now constructor | auto].
Qed.

(** [/^[p]{m,n}$/] accepts the words of [m] to [n] characters of [p]. *)
Lemma matches_range_class p m n s :
  m <= n ->
  matches (range m n (Class p)) s = true <->
  (m <= length s <= n /\ forallb p s = true).
Proof.
  intros Hmn. rewrite matches_lang. unfold range. rewrite lang_Seq. split.
  - intros (s1 & s2 & -> & H1 & H2).
    apply lang_times_class in H1 as [L1 F1].
    apply lang_upto_class in H2 as [L2 F2].
    rewrite length_app, forallb_app, F1, F2. split; [lia | reflexivity].
  - intros [Hl Hf]. exists (firstn m s), (skipn m s).
    rewrite <- (firstn_skipn m s) in Hf. rewrite forallb_app in Hf.
    apply andb_true_iff in Hf as [F1 F2].
    split; [now rewrite firstn_skipn|]. split.
    + apply lang_times_class. split; [|exact F1].
      rewrite length_firstn. lia.
    + apply lang_upto_class. split; [|exact F2].
      rewrite length_skipn. lia.
Qed.

(** [/^[p]{m,}$/] accepts the words of at least [m] characters of [p]. *)
Lemma matches_atLeast_class p m s :
  matches (atLeast m (Class p)) s = true <->
  (m <= length s /\ forallb p s = true).
Proof.
  rewrite matches_lang. unfold atLeast. rewrite lang_Seq. split.
  - intros (s1 & s2 & -> & H1 & H2).
    apply lang_times_class in H1 as [L1 F1].
    apply lang_star_class in H2.
    rewrite length_app, forallb_app, F1, H2. split; [lia | reflexivity].
  - intros [Hl Hf]. exists (firstn m s), (skipn m s).
    rewrite <- (firstn_skipn m s) in Hf. rewrite forallb_app in Hf.
    apply andb_true_iff in Hf as [F1 F2].
    split; [now rewrite firstn_skipn|]. split.
    + apply lang_times_class. split; [|exact F1].
      rewrite length_firstn. lia.
    + now apply lang_star_class.
Qed.

End RegExpFacts.

(** ** Trimming, splitting and tokens *)

Module JSFacts.
Import JS.

Lemma split_nonempty sep s : split sep s <> [].
Proof.
  destruct s as [| c s]; simpl; [discriminate|].
  destruct (c =? sep)%N; [discriminate|].
  destruct (split sep s); discriminate.
Qed.

(** [split] yields one piece more than there are separators. *)
Lemma split_length sep s :
  length (split sep s) = S (length (List.filter (fun c => (c =? sep)%N) s)).
Proof.
  induction s as [| c s IH]; [reflexivity|]. simpl.
  destruct (c =? sep)%N; simpl; [now rewrite IH|].
  destruct (split sep s) eqn:E; [now apply split_nonempty in E|].
  exact IH.
Qed.

(** At least two pieces: the separator occurs. *)
Lemma split_two sep s : 2 <= length (split sep s) <-> In sep s.
Proof.
  rewrite split_length. induction s as [| c s IH]; simpl.
  - split; [lia | contradiction].
  - destruct (N.eqb_spec c sep) as [-> | Hne]; simpl.
    + split; [auto | lia].
    + rewrite IH. split; [auto | intros [H | H]; [contradiction | exact H]].
Qed.

Lemma trimStart_head s :
  trimStart s = [] \/
  exists c rest, trimStart s = c :: rest /\ isWhiteSpace c = false.
Proof.
  induction s as [| c s IH]; simpl; [now left|].
  destruct (isWhiteSpace c) eqn:Hc; [exact IH|].
  right. exists c, s. auto.
Qed.

Lemma trimStart_snoc l c :
  isWhiteSpace c = false -> trimStart (l ++ [c]) = trimStart l ++ [c].
Proof.
  intros Hc. induction l as [| d l IH]; simpl.
  - now rewrite Hc.
  - destruct (isWhiteSpace d); [exact IH | reflexivity].
Qed.

(** A trimmed string is empty, or starts and ends with a character that is
    not whitespace. *)
Lemma trim_ends s :
  trim s = [] \/
  exists c m pre d,
    trim s = c :: m /\ isWhiteSpace c = false /\
    trim s = pre ++ [d] /\ isWhiteSpace d = false.
Proof.
  unfold trim, trimEnd.
  destruct (trimStart_head s) as [-> | (c & rest & -> & Hc)]; [now left|].
  right. simpl rev. rewrite trimStart_snoc by exact Hc.
  rewrite rev_app_distr. simpl.
  exists c, (rev (trimStart (rev rest))).
  destruct (trimStart_head (rev rest)) as [E | (d & rest' & E & Hd)]; rewrite E; simpl.
  - exists [], c. auto.
  - exists (c :: rev rest'), d. auto.
Qed.

End JSFacts.

(** ** Whitespace tokens *)

Module TokenFacts.
Import JS Rules.

Lemma tokensFrom_last u :
  (exists pre d, u = pre ++ [d] /\ isWhiteSpace d = false) ->
  forall cur, 1 <= length (tokensFrom cur u).
Proof.
  induction u as [| x u IH]; intros (pre & d & E & Hd) cur.
  - now destruct pre.
  - destruct pre as [| p pre]; simpl in E; injection E as -> ->.
    + simpl. rewrite Hd. simpl. lia.
    + assert (Hu : exists pre0 d0, pre ++ [d] = pre0 ++ [d0] /\ isWhiteSpace d0 = false)
        by (exists pre, d; auto).
      simpl. destruct (isWhiteSpace p).
      * destruct cur; [apply IH, Hu | simpl; lia].
      * apply IH, Hu.
Qed.

Lemma tokensFrom_two u :
  (exists w, In w u /\ isWhiteSpace w = true) ->
  (exists pre d, u = pre ++ [d] /\ isWhiteSpace d = false) ->
  forall cur, cur <> [] -> 2 <= length (tokensFrom cur u).
Proof.
  induction u as [| x u IH]; intros (w & Hin & Hw) (pre & d & E & Hd) cur Hcur.
  - contradiction.
  - destruct pre as [| p pre]; simpl in E; injection E as -> ->.
    + destruct Hin as [-> | []]. congruence.
    + assert (Hu : exists pre0 d0, pre ++ [d] = pre0 ++ [d0] /\ isWhiteSpace d0 = false)
        by (exists pre, d; auto).
      simpl. destruct (isWhiteSpace p) eqn:Hp.
      * destruct cur as [| c cur]; [congruence|]. simpl.
        pose proof (tokensFrom_last _ Hu []). lia.
      * apply IH; [| exact Hu | discriminate].
        destruct Hin as [-> | Hin]; [congruence|]. exists w. auto.
Qed.

(** A trimmed value with a space in it has at least two whitespace tokens:
    what the components accept, the rule of the specification accepts. *)
Lemma twoPieces_twoTokens s : twoPieces s = true -> twoTokens s = true.
Proof.
  unfold twoPieces, twoTokens. rewrite !Nat.leb_le, JSFacts.split_two.
  intros Hin. unfold tokens.
  destruct (JSFacts.trim_ends s) as [E | (c & m & pre & d & E1 & Hc & E2 & Hd)].
  - rewrite E in Hin. contradiction.
  - rewrite E1 in Hin.
    destruct Hin as [Heq | Hin]; [subst c; vm_compute in Hc; discriminate Hc|].
    rewrite E1. simpl. rewrite Hc.
    apply tokensFrom_two; [exists SPACE; auto | | discriminate].
    rewrite E1 in E2. destruct pre as [| p pre]; simpl in E2; injection E2 as -> ->.
    + contradiction.
    + exists pre, d. auto.
Qed.

End TokenFacts.

(** ** From the error list of Yup to the errors object of Formik *)

Module FormikFacts.
Import Formik.

Lemma validateObject_fields sh o f :
  Forall (fun ks => Yup.validate ks.1 ks.2 (Value.get o ks.1)
                    = Value.Ok (option_list (f ks.1))) sh ->
  Yup.validateObject sh o = Value.Ok (fieldErrors f (map fst sh)).
Proof.
  induction 1 as [| [k s] sh Hk _ IH]; [reflexivity|].
  simpl in *. rewrite Hk. simpl. rewrite IH. reflexivity.
Qed.

Lemma fold_keep_lookup inner (e0 : gmap string string) k :
  Forall (fun err => Yup.message_ err <> EmptyString) inner ->
  (forall p m, e0 !! p = Some m -> m <> EmptyString) ->
  fold_left keep inner e0 !! k =
  match e0 !! k with
  | Some m => Some m
  | None => firstMessage k inner
  end.
Proof.
  intros Hin. revert e0. induction Hin as [| err rest Hm _ IH]; intros e0 He0; simpl.
  - destruct (e0 !! k); reflexivity.
  - unfold keep at 2. unfold unset.
    destruct (e0 !! Yup.path err) as [m' |] eqn:Hp.
    + destruct m' as [| a m'']; [now apply He0 in Hp|].
      rewrite IH by exact He0.
      destruct (e0 !! k) eqn:Hk; [reflexivity|].
      destruct (String.eqb_spec (Yup.path err) k) as [Heq | Hne]; [congruence | reflexivity].
    + rewrite IH.
      * destruct (String.eqb_spec (Yup.path err) k) as [Heq | Hne].
        -- rewrite <- Heq, lookup_insert_eq, Hp. reflexivity.
        -- rewrite lookup_insert_ne by exact Hne. reflexivity.
      * intros p m. destruct (decide (Yup.path err = p)) as [<- | Hne].
        -- rewrite lookup_insert_eq. congruence.
        -- rewrite lookup_insert_ne by exact Hne. apply He0.
Qed.

Lemma yupToFormErrors_lookup inner k :
  Forall (fun err => Yup.message_ err <> EmptyString) inner ->
  yupToFormErrors inner !! k = firstMessage k inner.
Proof.
  intros H. unfold yupToFormErrors.
  rewrite fold_keep_lookup; [now rewrite lookup_empty | exact H |].
  intros p m. rewrite lookup_empty. discriminate.
Qed.

Lemma firstMessage_fieldErrors f keys k :
  firstMessage k (fieldErrors f keys) = if bool_decide (k ∈ keys) then f k else None.
Proof.
  induction keys as [| k0 keys IH]; [reflexivity|].
  unfold fieldErrors in *. simpl.
  destruct (decide (k0 = k)) as [-> | Hne].
  - rewrite bool_decide_eq_true_2 by left.
    destruct (f k) as [m |] eqn:Hf; simpl.
    + now rewrite String.eqb_refl.
    + rewrite IH. try rewrite Hf. now destruct (bool_decide _).
  - assert (Hin : bool_decide (k ∈ k0 :: keys) = bool_decide (k ∈ keys)).
    { apply bool_decide_ext. rewrite elem_of_cons. intuition congruence. }
    rewrite Hin, <- IH.
    destruct (f k0) as [m |]; simpl; [|reflexivity].
    destruct (String.eqb_spec k0 k); [contradiction | reflexivity].
Qed.

Lemma errorsAt_fieldErrors f keys k :
  NoDup keys ->
  errorsAt k (fieldErrors f keys) =
  if bool_decide (k ∈ keys) then map (Yup.mkError k) (option_list (f k)) else [].
Proof.
  induction 1 as [| k0 keys Hnotin _ IH]; [reflexivity|].
  unfold errorsAt, fieldErrors in *. simpl. rewrite List.filter_app, IH.
  destruct (decide (k0 = k)) as [-> | Hne].
  - rewrite (bool_decide_eq_true_2 (k ∈ k :: keys)) by left.
    rewrite (bool_decide_eq_false_2 (k ∈ keys)) by exact Hnotin.
    rewrite app_nil_r. destruct (f k); simpl; [|reflexivity].
    now rewrite String.eqb_refl.
  - assert (Hin : bool_decide (k ∈ k0 :: keys) = bool_decide (k ∈ keys)).
    { apply bool_decide_ext. rewrite elem_of_cons. intuition congruence. }
    rewrite Hin. destruct (f k0); simpl; [|reflexivity].
    destruct (String.eqb_spec k0 k); [contradiction | reflexivity].
Qed.

(** When every field of the shape reports at most one, non-empty message,
    the validation resolves and the errors object holds exactly these
    messages. *)
Lemma runValidationSchema_fields sh o f :
  Forall (fun ks => Yup.validate ks.1 ks.2 (Value.get (prepareDataForValidation o) ks.1)
                    = Value.Ok (option_list (f ks.1))) sh ->
  (forall k, f k <> Some EmptyString) ->
  exists e, runValidationSchema sh o = Resolved e /\
            forall k, e !! k = if bool_decide (k ∈ map fst sh) then f k else None.
Proof.
  intros Hsh Hf. unfold runValidationSchema.
  rewrite (validateObject_fields _ _ f Hsh).
  assert (Hne : Forall (fun err => Yup.message_ err <> EmptyString)
                       (fieldErrors f (map fst sh))).
  { unfold fieldErrors. induction (map fst sh) as [| k keys IH]; simpl; [constructor|].
    apply Forall_app. split; [|exact IH].
    destruct (f k) as [m |] eqn:Hk; simpl; constructor; [|constructor].
    simpl. intros ->. now apply (Hf k). }
  exists (yupToFormErrors (fieldErrors f (map fst sh))). split.
  - now destruct (fieldErrors f (map fst sh)).
  - intros k. rewrite yupToFormErrors_lookup by exact Hne.
    apply firstMessage_fieldErrors.
Qed.

(** [isValid] holds when no field has an entry. *)
Lemma isValid_spec (e : gmap string string) :
  isValid e = true <-> forall k, e !! k = None.
Proof.
  unfold isValid. rewrite Nat.eqb_eq, map_size_empty_iff. split.
  - intros -> k. apply lookup_empty.
  - intros H. now apply map_empty.
Qed.

End FormikFacts.

(** ** Validation of the field schemas *)

Module YupFacts.
Import Value.

Lemma search_matches body x :
  negb (RegExp.search body x =? -1)%Z = RegExp.matches body x.
Proof. unfold RegExp.search. now destruct (RegExp.matches body x). Qed.

Lemma matchesFn_Str re x :
  Yup.matchesFn re false (Str x) = Ok (RegExp.matches (Yup.body re) x).
Proof.
  unfold Yup.matchesFn. now rewrite andb_false_r, search_matches.
Qed.

Lemma matchesFn_Str_nonempty re b c x :
  Yup.matchesFn re b (Str (c :: x)) = Ok (RegExp.matches (Yup.body re) (c :: x)).
Proof.
  unfold Yup.matchesFn. rewrite search_matches.
  now rewrite bool_decide_eq_false_2 by discriminate.
Qed.

(** [Yup.string().<test>.required(message)] on a prepared string: the
    required message on the empty string, the verdict of the test
    otherwise. *)
Lemma validate_required_with (t : Yup.test) (msg : option string) path x ok :
  (x <> [] -> Yup.fn t (Str x) = Ok ok) ->
  Yup.validate path (Yup.string .> Yup.addTest t .> Yup.required msg)
               (Formik.prepareValue (Str x)) =
  Ok (option_list
        (Rules.requiredAnd x
           (Yup.render path (Yup.orDefault msg Yup.locale_required)) ok
           (Yup.render path (Yup.message_of t)))).
Proof.
  intros Hfn. destruct x as [| c x]; [reflexivity|].
  unfold Yup.validate. cbn. unfold Yup.runTest. cbn. rewrite andb_false_r.
  rewrite Hfn by discriminate. now destruct ok.
Qed.

Lemma fullName_Str x :
  x <> [] -> fullName (Str x) = Ok (Rules.twoPieces x).
Proof. destruct x; [congruence | reflexivity]. Qed.

Lemma matchesFn_email x :
  x <> [] -> Yup.matchesFn Yup.rEmail true (Str x) = Ok (Rules.isEmail x).
Proof. destruct x; [congruence | intros _; apply matchesFn_Str_nonempty]. Qed.

(** [Yup.string().required(message)] *)
Lemma validate_required_only (mreq : string) path x :
  Yup.validate path (Yup.string .> Yup.required (Some mreq))
               (Formik.prepareValue (Str x)) =
  Ok (match x with [] => [mreq] | _ => [] end).
Proof. destruct x; reflexivity. Qed.

(** [Yup.string()] *)
Lemma validate_string path x :
  Yup.validate path Yup.string (Formik.prepareValue (Str x)) = Ok [].
Proof. destruct x; reflexivity. Qed.

(** [Yup.boolean().oneOf([true], message).required(message)] *)
Lemma validate_must_be_true (m : string) path b :
  Yup.validate path
    (Yup.boolean .> Yup.oneOf [Bool true] m .> Yup.required (Some m))
    (Formik.prepareValue (Bool b)) =
  Ok (if b then [] else [m]).
Proof. destruct b; reflexivity. Qed.

(** [Yup.mixed().nullable().test(name, message, fileSize)] *)
Lemma validate_file nm (m : string) path (f : option File) :
  Yup.validate path (Yup.mixed .> Yup.nullable .> Yup.test_ nm m fileSize)
    (Formik.prepareValue (match f with Some x => FileObj x | None => Null end)) =
  Ok (match f with
      | None => []
      | Some x => if (size x <=? 10 * 1024 * 1024)%N then [] else [m]
      end).
Proof.
  destruct f as [x |]; [|reflexivity].
  unfold Yup.validate. cbn -[N.leb N.mul]. now destruct (size x <=? _)%N.
Qed.

End YupFacts.

(** ** The contact and newsletter validators of ContactForm.tsx *)

Module ContactFacts.
Import Value.

(** The patterns as conditions on the value. *)
Lemma re_postcode_spec x :
  RegExp.matches (Yup.body re_postcode) x =
  (4 <=? length x) && (length x <=? 10) && Rules.digits x.
Proof.
  apply eq_true_iff_eq. unfold re_postcode, RegExp.digit, Rules.digits. simpl Yup.body.
  rewrite RegExpFacts.matches_range_class by lia.
  rewrite !andb_true_iff, !Nat.leb_le. tauto.
Qed.

Lemma re_phone_spec x :
  RegExp.matches (Yup.body re_phone) x = (10 <=? length x) && Rules.digits x.
Proof.
  apply eq_true_iff_eq. unfold re_phone, RegExp.digit, Rules.digits. simpl Yup.body.
  rewrite RegExpFacts.matches_atLeast_class.
  rewrite !andb_true_iff, !Nat.leb_le. tauto.
Qed.

Local Ltac field_value :=
  cbn [fst snd];
  match goal with
  | |- context [Value.get ?o ?k] =>
      let v := eval cbn -[Formik.prepareValue] in (Value.get o k) in
      change (Value.get o k) with v
  end.

Local Ltac rule_entry :=
  unfold Rules.contactError; simpl (String.eqb _ _); cbv beta iota.

Lemma contactSchema_fields r :
  Forall (fun ks =>
            Yup.validate ks.1 ks.2
              (Value.get (Formik.prepareDataForValidation (contactValues r)) ks.1)
            = Ok (option_list (Rules.contactError r ks.1)))
         ContactForm.contactSchema.
Proof.
  unfold ContactForm.contactSchema.
  repeat apply List.Forall_cons; try apply List.Forall_nil; field_value.
  - unfold Yup.min. now erewrite YupFacts.validate_required_with by reflexivity.
  - apply YupFacts.validate_string.
  - unfold Yup.min. now erewrite YupFacts.validate_required_with by reflexivity.
  - unfold Yup.matches, Yup.matchesWith.
    erewrite YupFacts.validate_required_with
      by (intros _; apply YupFacts.matchesFn_Str).
    rule_entry. now rewrite re_postcode_spec.
  - unfold Yup.test_.
    now erewrite YupFacts.validate_required_with by apply YupFacts.fullName_Str.
  - unfold Yup.matches, Yup.matchesWith.
    erewrite YupFacts.validate_required_with
      by (intros _; apply YupFacts.matchesFn_Str).
    rule_entry. now rewrite re_phone_spec.
  - unfold Yup.email, Yup.matchesWith.
    now erewrite YupFacts.validate_required_with by apply YupFacts.matchesFn_email.
  - apply YupFacts.validate_string.
  - unfold Yup.min. now erewrite YupFacts.validate_required_with by reflexivity.
  - rewrite YupFacts.validate_file. destruct (file r) as [f |] eqn:Hf.
    + rule_entry. rewrite Hf. now destruct (size f <=? _)%N.
    + rule_entry. now rewrite Hf.
  - rewrite YupFacts.validate_must_be_true. rule_entry. now destruct (nda r).
Qed.

Lemma contactError_fields r k :
  Rules.contactError r k <> None -> k ∈ Rules.contactFields.
Proof.
  unfold Rules.contactError, Rules.contactFields.
  repeat match goal with
         | |- context [String.eqb k ?s] =>
             destruct (String.eqb_spec k s) as [-> | ?];
             [intros _; repeat (try (left; fail); right) |]
         end.
  intros H. exfalso. now apply H.
Qed.

Lemma contactError_nonempty r k : Rules.contactError r k <> Some EmptyString.
Proof.
  unfold Rules.contactError, Rules.requiredAnd.
  repeat (destruct (String.eqb k _));
    repeat match goal with
           | |- context [match ?x with _ => _ end] => destruct x
           end; discriminate.
Qed.

(** The contact validator resolves, and the errors object holds exactly
    the entries of the rule table. *)
Lemma validateContact_entries r :
  exists e, ContactForm.validateContact r = Formik.Resolved e /\
            forall k, e !! k = Rules.contactError r k.
Proof.
  destruct (FormikFacts.runValidationSchema_fields
              ContactForm.contactSchema (contactValues r) (Rules.contactError r)
              (contactSchema_fields r) (contactError_nonempty r)) as (e & He & Hk).
  exists e. split; [exact He|]. intros k. rewrite Hk.
  destruct (bool_decide _) eqn:Hin; [reflexivity|].
  apply bool_decide_eq_false in Hin.
  destruct (Rules.contactError r k) eqn:Hc; [|reflexivity].
  exfalso. apply Hin. change (k ∈ Rules.contactFields).
  apply (contactError_fields r). congruence.
Qed.

Local Ltac hooks_entry :=
  unfold Rules.hooksContactError; simpl (String.eqb _ _); cbv beta iota.

Lemma hooksSchema_fields r :
  Forall (fun ks =>
            Yup.validate ks.1 ks.2
              (Value.get (Formik.prepareDataForValidation (contactValues r)) ks.1)
            = Ok (option_list (Rules.hooksContactError r ks.1)))
         ContactFormHooks.contactSchema.
Proof.
  unfold ContactFormHooks.contactSchema.
  repeat apply List.Forall_cons; try apply List.Forall_nil; field_value; hooks_entry.
  - unfold Yup.min. now erewrite YupFacts.validate_required_with by reflexivity.
  - apply YupFacts.validate_string.
  - unfold Yup.min. now erewrite YupFacts.validate_required_with by reflexivity.
  - rewrite YupFacts.validate_required_only. now destruct (postcode r).
  - unfold Yup.test_.
    now erewrite YupFacts.validate_required_with by apply YupFacts.fullName_Str.
  - rewrite YupFacts.validate_required_only. now destruct (contactPhone r).
  - unfold Yup.email, Yup.matchesWith.
    now erewrite YupFacts.validate_required_with by apply YupFacts.matchesFn_email.
  - apply YupFacts.validate_string.
  - unfold Yup.min. now erewrite YupFacts.validate_required_with by reflexivity.
  - rewrite YupFacts.validate_file. destruct (file r) as [f |] eqn:Hf.
    + rule_entry. rewrite Hf. now destruct (size f <=? _)%N.
    + rule_entry. now rewrite Hf.
  - rewrite YupFacts.validate_must_be_true. rule_entry. now destruct (nda r).
Qed.

Lemma hooksContactError_fields r k :
  Rules.hooksContactError r k <> None -> k ∈ Rules.contactFields.
Proof.
  unfold Rules.hooksContactError.
  destruct (String.eqb_spec k "postcode") as [-> | ?];
    [intros _; repeat (try (left; fail); right) |].
  destruct (String.eqb_spec k "contactPhone") as [-> | ?];
    [intros _; repeat (try (left; fail); right) |].
  apply contactError_fields.
Qed.

Lemma hooksContactError_nonempty r k : Rules.hooksContactError r k <> Some EmptyString.
Proof.
  unfold Rules.hooksContactError.
  destruct (String.eqb k "postcode"); [now destruct (postcode r)|].
  destruct (String.eqb k "contactPhone"); [now destruct (contactPhone r)|].
  apply contactError_nonempty.
Qed.

(** The hook-based copy resolves as well, with the entries of its table. *)
Lemma validateContact_hooks_entries r :
  exists e, ContactFormHooks.validateContact r = Formik.Resolved e /\
            forall k, e !! k = Rules.hooksContactError r k.
Proof.
  destruct (FormikFacts.runValidationSchema_fields
              ContactFormHooks.contactSchema (contactValues r)
              (Rules.hooksContactError r)
              (hooksSchema_fields r) (hooksContactError_nonempty r)) as (e & He & Hk).
  exists e. split; [exact He|]. intros k. rewrite Hk.
  destruct (bool_decide _) eqn:Hin; [reflexivity|].
  apply bool_decide_eq_false in Hin.
  destruct (Rules.hooksContactError r k) eqn:Hc; [|reflexivity].
  exfalso. apply Hin. change (k ∈ Rules.contactFields).
  apply (hooksContactError_fields r). congruence.
Qed.

(** The newsletter validator of ContactForm.tsx. *)
Lemma validateNewsletter_entries r :
  exists e, ContactForm.validateNewsletter r = Formik.Resolved e /\
            forall k, e !! k = Rules.newsletterError r k.
Proof.
  assert (Hf : Forall (fun ks =>
            Yup.validate ks.1 ks.2
              (Value.get (Formik.prepareDataForValidation (newsletterValues r)) ks.1)
            = Ok (option_list (Rules.newsletterError r ks.1)))
         ContactForm.newsletterSchema).
  { unfold ContactForm.newsletterSchema.
    repeat apply List.Forall_cons; try apply List.Forall_nil; field_value.
    unfold Yup.email, Yup.matchesWith.
    now erewrite YupFacts.validate_required_with by apply YupFacts.matchesFn_email. }
  assert (Hne : forall k, Rules.newsletterError r k <> Some EmptyString).
  { intros k. unfold Rules.newsletterError, Rules.requiredAnd.
    destruct (String.eqb k "email"); [|discriminate].
    destruct (newsletterEmail r); [discriminate|].
    now destruct (Rules.isEmail _). }
  destruct (FormikFacts.runValidationSchema_fields _ _ _ Hf Hne) as (e & He & Hk).
  exists e. split; [exact He|]. intros k. rewrite Hk.
  destruct (bool_decide _) eqn:Hin; [reflexivity|].
  apply bool_decide_eq_false in Hin.
  unfold Rules.newsletterError.
  destruct (String.eqb_spec k "email") as [-> | ?]; [|reflexivity].
  exfalso. apply Hin. left.
Qed.

(** The error list Yup hands to Formik for a contact record. *)
Lemma contactSchema_inner r :
  Yup.validateObject ContactForm.contactSchema
    (Formik.prepareDataForValidation (contactValues r)) =
  Ok (Formik.fieldErrors (Rules.contactError r) Rules.contactFields).
Proof. apply FormikFacts.validateObject_fields, contactSchema_fields. Qed.

Lemma contactFields_NoDup : NoDup Rules.contactFields.
Proof.
  unfold Rules.contactFields.
  repeat (apply NoDup_cons_2;
          [rewrite ?elem_of_cons, elem_of_nil; intuition discriminate|]).
  apply NoDup_nil_2.
Qed.

(** The newsletter validator of the hook-based copy. *)
Lemma validateNewsletter_hooks_entries r :
  exists e, ContactFormHooks.validateNewsletter r = Formik.Resolved e /\
            forall k, e !! k = Rules.hooksNewsletterError r k.
Proof.
  assert (Hf : Forall (fun ks =>
            Yup.validate ks.1 ks.2
              (Value.get (Formik.prepareDataForValidation (newsletterValues r)) ks.1)
            = Ok (option_list (Rules.hooksNewsletterError r ks.1)))
         ContactFormHooks.newsletterSchema).
  { unfold ContactFormHooks.newsletterSchema.
    repeat apply List.Forall_cons; try apply List.Forall_nil; field_value.
    unfold Yup.email, Yup.matchesWith.
    now erewrite YupFacts.validate_required_with by apply YupFacts.matchesFn_email. }
  assert (Hne : forall k, Rules.hooksNewsletterError r k <> Some EmptyString).
  { intros k. unfold Rules.hooksNewsletterError, Rules.requiredAnd.
    destruct (String.eqb k "email"); [|discriminate].
    destruct (newsletterEmail r); [discriminate|].
    now destruct (Rules.isEmail _). }
  destruct (FormikFacts.runValidationSchema_fields _ _ _ Hf Hne) as (e & He & Hk).
  exists e. split; [exact He|]. intros k. rewrite Hk.
  destruct (bool_decide _) eqn:Hin; [reflexivity|].
  apply bool_decide_eq_false in Hin.
  unfold Rules.hooksNewsletterError.
  destruct (String.eqb_spec k "email") as [-> | ?]; [|reflexivity].
  exfalso. apply Hin. left.
Qed.

(** The three outcomes of a required field with a shape rule. *)
Lemma requiredAnd_cases x (req shape : string) ok :
  req <> shape ->
  (Rules.requiredAnd x req ok shape = None <-> x <> [] /\ ok = true) /\
  (Rules.requiredAnd x req ok shape = Some req <-> x = []) /\
  (Rules.requiredAnd x req ok shape = Some shape <-> x <> [] /\ ok = false).
Proof.
  intros Hne. unfold Rules.requiredAnd.
  destruct x as [| c x]; [|destruct ok]; repeat split;
    try congruence; try tauto; try discriminate;
    try (intros [H _]; congruence); try (intros [_ H]; congruence).
Qed.

Lemma digits_Forall x :
  Rules.digits x = true <-> Forall Rules.decimalDigit x.
Proof.
  unfold Rules.digits. rewrite forallb_forall, Forall_forall.
  assert (H : forall c, RegExp.isDigit c = true <-> Rules.decimalDigit c).
  { intros c. unfold RegExp.isDigit, RegExp.between, Rules.decimalDigit.
    rewrite andb_true_iff, !N.leb_le. reflexivity. }
  split; intros Hx c Hc.
  - apply H, Hx. now apply list_elem_of_In.
  - apply H, Hx. now apply list_elem_of_In.
Qed.

End ContactFacts.

(* ===================================================================== *)
(** * The claims of the specification *)
(* ===================================================================== *)

Import Formik.

Local Ltac entry_of r k :=
  let e := fresh "e" in
  let He := fresh "He" in
  let Hk := fresh "Hk" in
  destruct (ContactFacts.validateContact_entries r) as (e & He & Hk);
  exists e; split; [exact He|];
  rewrite (Hk k); unfold Rules.contactError; simpl (String.eqb _ _); cbv beta iota.

(** An entry that the rule table fixes for a concrete record. *)
Lemma entryIs_contact r k :
  entryIs (ContactForm.validateContact r) k (Rules.contactError r k).
Proof.
  destruct (ContactFacts.validateContact_entries r) as (e & He & Hk).
  exists e. split; [exact He | apply Hk].
Qed.

Lemma entryIs_hooks r k :
  entryIs (ContactFormHooks.validateContact r) k (Rules.hooksContactError r k).
Proof.
  destruct (ContactFacts.validateContact_hooks_entries r) as (e & He & Hk).
  exists e. split; [exact He | apply Hk].
Qed.

Lemma entryIs_newsletter r k :
  entryIs (ContactForm.validateNewsletter r) k (Rules.newsletterError r k).
Proof.
  destruct (ContactFacts.validateNewsletter_entries r) as (e & He & Hk).
  exists e. split; [exact He | apply Hk].
Qed.

(** The postcode rule of ContactForm.tsx: for every contact record the
    validator resolves, and its [postcode] entry is absent exactly when the
    postcode is non-empty and consists of 4 to 10 decimal digits; the entry
    is "Postcode is required" exactly on the empty postcode and
    "Postcode must be 4–10 digits" exactly on a non-empty postcode that is
    not 4 to 10 digits.  Whatever the other fields hold, "1234" is valid and
    "123", "12345678901" and "12a4" get the digits message. *)
Lemma postcode_rule :
  (forall r : ContactFormValues,
      exists e, ContactForm.validateContact r = Resolved e /\
        (e !! "postcode" = None <->
           postcode r <> [] /\ 4 <= length (postcode r) <= 10 /\
           Forall Rules.decimalDigit (postcode r)) /\
        (e !! "postcode" = Some "Postcode is required" <-> postcode r = []) /\
        (e !! "postcode" = Some "Postcode must be 4–10 digits" <->
           postcode r <> [] /\
           ~ (4 <= length (postcode r) <= 10 /\
              Forall Rules.decimalDigit (postcode r)))) /\
  (forall r : ContactFormValues,
      entryIs (ContactForm.validateContact (setFieldValue r (SetPostcode (JS.lit "1234"))))
              "postcode" None /\
      entryIs (ContactForm.validateContact (setFieldValue r (SetPostcode (JS.lit "123"))))
              "postcode" (Some "Postcode must be 4–10 digits") /\
      entryIs (ContactForm.validateContact (setFieldValue r (SetPostcode (JS.lit "12345678901"))))
              "postcode" (Some "Postcode must be 4–10 digits") /\
      entryIs (ContactForm.validateContact (setFieldValue r (SetPostcode (JS.lit "12a4"))))
              "postcode" (Some "Postcode must be 4–10 digits") /\
      entryIs (ContactForm.validateContact (setFieldValue r (SetPostcode [])))
              "postcode" (Some "Postcode is required")).
Proof.
  split.
  - intros r. entry_of r "postcode".
    destruct (ContactFacts.requiredAnd_cases (postcode r)
                "Postcode is required" "Postcode must be 4–10 digits"
                ((4 <=? length (postcode r)) && (length (postcode r) <=? 10)
                 && Rules.digits (postcode r))) as (H1 & H2 & H3); [discriminate|].
    rewrite H1, H2, H3.
    assert (Hok : (4 <=? length (postcode r)) && (length (postcode r) <=? 10)
                  && Rules.digits (postcode r) = true <->
                  4 <= length (postcode r) <= 10 /\
                  Forall Rules.decimalDigit (postcode r)).
    { rewrite !andb_true_iff, !Nat.leb_le, ContactFacts.digits_Forall. tauto. }
    rewrite <- not_true_iff_false, Hok. tauto.
  - intros r. destruct r. repeat split; apply entryIs_contact.
Qed.

(** C3: for every contact record the [nda] entry (the NDA agreement) is
    absent exactly when the box is ticked, and is "You must agree to NDA"
    exactly when it is not; Yup reports exactly that one error for the
    path. *)
Theorem C3_nda_rule (r : ContactFormValues) :
  exists e inner,
    ContactForm.validateContact r = Resolved e /\
    Yup.validateObject ContactForm.contactSchema
      (prepareDataForValidation (contactValues r)) = Value.Ok inner /\
    (e !! "nda" = None <-> nda r = true) /\
    (e !! "nda" = Some "You must agree to NDA" <-> nda r = false) /\
    (nda r = true <-> errorsAt "nda" inner = []) /\
    (nda r = false <->
     errorsAt "nda" inner = [Yup.mkError "nda" "You must agree to NDA"]).
Proof.
  destruct (ContactFacts.validateContact_entries r) as (e & He & Hk).
  exists e, (fieldErrors (Rules.contactError r) Rules.contactFields).
  split; [exact He|]. split; [apply ContactFacts.contactSchema_inner|].
  rewrite (Hk "nda").
  rewrite FormikFacts.errorsAt_fieldErrors by apply ContactFacts.contactFields_NoDup.
  change (bool_decide ("nda" ∈ Rules.contactFields)) with true. cbv beta iota.
  change (Rules.contactError r "nda")
    with (if nda r then None else Some "You must agree to NDA"%string).
  destruct (nda r); simpl; repeat split; congruence.
Qed.

(** C5: for every contact record the [file] entry is absent when no file
    is attached or the attached file has at most 10 * 1024 * 1024 bytes,
    and is "File size is too large (max 10MB)" when the attached file has
    10 * 1024 * 1024 + 1 bytes or more; a file of exactly 10 MiB is valid,
    one byte more is not.  Both copies of the component agree on it. *)
Theorem C5_file_rule :
  (forall r : ContactFormValues,
      exists e, ContactForm.validateContact r = Resolved e /\
        (e !! "file" = None <->
           file r = None \/
           exists f, file r = Some f /\ (Value.size f <= 10 * 1024 * 1024)%N) /\
        (e !! "file" = Some "File size is too large (max 10MB)" <->
           exists f, file r = Some f /\ (10 * 1024 * 1024 + 1 <= Value.size f)%N)) /\
  (forall r : ContactFormValues,
      entryIs (ContactForm.validateContact (setFieldValue r (SetFile None)))
              "file" None /\
      entryIs (ContactForm.validateContact (setFieldValue r (SetFile (Some Samples.MiB10))))
              "file" None /\
      entryIs (ContactForm.validateContact (setFieldValue r (SetFile (Some Samples.MiB10plus1))))
              "file" (Some "File size is too large (max 10MB)")) /\
  (forall r : ContactFormValues,
      exists e e', ContactForm.validateContact r = Resolved e /\
                   ContactFormHooks.validateContact r = Resolved e' /\
                   e' !! "file" = e !! "file").
Proof.
  split; [|split].
  - intros r. entry_of r "file".
    assert (Hsize : forall f : Value.File,
               (Value.size f <=? 10 * 1024 * 1024)%N = true <->
               (Value.size f <= 10 * 1024 * 1024)%N) by (intros f; apply N.leb_le).
    destruct (file r) as [f |].
    + specialize (Hsize f).
      destruct (Value.size f <=? 10 * 1024 * 1024)%N; split; split;
        try discriminate; try (intros _; reflexivity).
      * intros _. right. exists f. split; [reflexivity | now apply Hsize].
      * intros (f' & Hf & Hs). injection Hf as <-.
        assert (Value.size f <= 10 * 1024 * 1024)%N by now apply Hsize. lia.
      * intros [H | (f' & Hf & Hs)]; [discriminate|]. injection Hf as <-.
        apply Hsize in Hs. discriminate.
      * intros _. exists f. split; [reflexivity|].
        destruct (N.le_gt_cases (Value.size f) (10 * 1024 * 1024)) as [Hle | Hgt];
          [apply Hsize in Hle; discriminate | lia].
    + split; split; try discriminate; try (intros _; reflexivity).
      * intros _. now left.
      * intros (f' & Hf & _). discriminate.
  - intros r. destruct r. repeat split; apply entryIs_contact.
  - intros r.
    destruct (ContactFacts.validateContact_entries r) as (e & He & Hk).
    destruct (ContactFacts.validateContact_hooks_entries r) as (e' & He' & Hk').
    exists e, e'. split; [exact He|]. split; [exact He'|].
    now rewrite Hk, Hk'.
Qed.

(** C6: the claim holds for the newsletter form of ContactForm.tsx and
    fails for the hook-based copy.  For every newsletter record the
    validator of ContactForm.tsx resolves; its [email] entry is absent
    exactly on a non-empty, well-formed address, is "Email is required"
    exactly on the empty string and "Invalid email" exactly on a non-empty
    malformed address; no other field has an entry; "a@b.com" is valid, ""
    is required, "not-an-email" is invalid.  The hook-based copy, whose
    schema [Yup.string().email().required()] names no message, accepts the
    same addresses but never yields "Email is required" or "Invalid email":
    on "" it yields "email is a required field" and on "not-an-email"
    "email must be a valid email". *)
Theorem C6_newsletter_rule :
  (forall r : NewsletterFormValues,
      exists e, ContactForm.validateNewsletter r = Resolved e /\
        (e !! "email" = None <->
           newsletterEmail r <> [] /\ Rules.isEmail (newsletterEmail r) = true) /\
        (e !! "email" = Some "Email is required" <-> newsletterEmail r = []) /\
        (e !! "email" = Some "Invalid email" <->
           newsletterEmail r <> [] /\ Rules.isEmail (newsletterEmail r) = false) /\
        dom e ⊆ {[ "email" ]}) /\
  (forall r : NewsletterFormValues,
      exists e', ContactFormHooks.validateNewsletter r = Resolved e' /\
        (e' !! "email" = None <->
           newsletterEmail r <> [] /\ Rules.isEmail (newsletterEmail r) = true) /\
        e' !! "email" <> Some "Email is required"%string /\
        e' !! "email" <> Some "Invalid email"%string /\
        dom e' ⊆ {[ "email" ]}) /\
  (ContactForm.validateNewsletter {| newsletterEmail := JS.lit "a@b.com" |}
     = Resolved ∅ /\
   ContactForm.validateNewsletter {| newsletterEmail := [] |}
     = Resolved {[ "email" := "Email is required" ]} /\
   ContactForm.validateNewsletter {| newsletterEmail := JS.lit "not-an-email" |}
     = Resolved {[ "email" := "Invalid email" ]}) /\
  (ContactFormHooks.validateNewsletter {| newsletterEmail := JS.lit "a@b.com" |}
     = Resolved ∅ /\
   ContactFormHooks.validateNewsletter {| newsletterEmail := [] |}
     = Resolved {[ "email" := "email is a required field" ]} /\
   ContactFormHooks.validateNewsletter {| newsletterEmail := JS.lit "not-an-email" |}
     = Resolved {[ "email" := "email must be a valid email" ]}).
Proof.
  split; [|split; [|split; repeat split; vm_compute; reflexivity]].
  - intros r. destruct (ContactFacts.validateNewsletter_entries r) as (e & He & Hk).
    exists e. split; [exact He|]. rewrite (Hk "email").
    change (Rules.newsletterError r "email")
      with (Rules.requiredAnd (newsletterEmail r) "Email is required"
              (Rules.isEmail (newsletterEmail r)) "Invalid email").
    destruct (ContactFacts.requiredAnd_cases (newsletterEmail r)
                "Email is required" "Invalid email"
                (Rules.isEmail (newsletterEmail r))) as (H1 & H2 & H3); [discriminate|].
    split; [exact H1|]. split; [exact H2|]. split; [exact H3|].
    apply elem_of_subseteq. intros k Hin.
    apply elem_of_dom in Hin as [m Hm]. rewrite Hk in Hm.
    unfold Rules.newsletterError in Hm.
    destruct (String.eqb_spec k "email") as [-> | ?]; [|discriminate].
    now apply elem_of_singleton.
  - intros r.
    destruct (ContactFacts.validateNewsletter_hooks_entries r) as (e' & He' & Hk').
    exists e'. split; [exact He'|]. rewrite (Hk' "email").
    change (Rules.hooksNewsletterError r "email")
      with (Rules.requiredAnd (newsletterEmail r) "email is a required field"
              (Rules.isEmail (newsletterEmail r)) "email must be a valid email").
    destruct (ContactFacts.requiredAnd_cases (newsletterEmail r)
                "email is a required field" "email must be a valid email"
                (Rules.isEmail (newsletterEmail r))) as (H1 & _ & _); [discriminate|].
    split; [exact H1|].
    split; [|split].
    + unfold Rules.requiredAnd. destruct (newsletterEmail r); [discriminate|].
      now destruct (Rules.isEmail _).
    + unfold Rules.requiredAnd. destruct (newsletterEmail r); [discriminate|].
      now destruct (Rules.isEmail _).
    + apply elem_of_subseteq. intros k Hin.
      apply elem_of_dom in Hin as [m Hm]. rewrite Hk' in Hm.
      unfold Rules.hooksNewsletterError in Hm.
      destruct (String.eqb_spec k "email") as [-> | ?]; [|discriminate].
      now apply elem_of_singleton.
Qed.

(** C7: the derived [isValid] flag is true exactly when no field has an
    error entry; for a contact record it is enough to look at the eleven
    fields.  The end-to-end record of the specification yields the empty
    error set and [isValid = true]; with the company name "A" it yields the
    single entry "Company name must be at least 2 characters" on
    [companyName] and [isValid = false]. *)
Theorem C7_isValid :
  (forall e : gmap string string, isValid e = true <-> forall k, e !! k = None) /\
  (forall r : ContactFormValues,
      exists e, ContactForm.validateContact r = Resolved e /\
        (isValid e = true <-> Forall (fun k => e !! k = None) Rules.contactFields)) /\
  ContactForm.validateContact Samples.joLee = Resolved ∅ /\
  isValid ∅ = true /\
  ContactForm.validateContact Samples.joLeeShortCompany
    = Resolved {[ "companyName" := "Company name must be at least 2 characters" ]} /\
  isValid {[ "companyName" := "Company name must be at least 2 characters" ]} = false.
Proof.
  split; [apply FormikFacts.isValid_spec|].
  split; [|repeat split; vm_compute; reflexivity].
  intros r. destruct (ContactFacts.validateContact_entries r) as (e & He & Hk).
  exists e. split; [exact He|]. rewrite FormikFacts.isValid_spec, Forall_forall.
  split; [now auto|]. intros H k.
  destruct (e !! k) as [m |] eqn:Hm; [|reflexivity].
  rewrite <- Hm. apply H. apply (ContactFacts.contactError_fields r).
  rewrite <- Hk. congruence.
Qed.

(** C9: both contact validators are total, and the claim holds for
    ContactForm.tsx only.  For every contact record, whatever strings, file
    size and flag it holds, the run of either copy resolves (no test
    function throws) and the errors object has entries for the eleven
    fields only.  In ContactForm.tsx each entry is the one of the rule
    table: absent for a valid field, the field's message for a violated
    one; the [contactName] entry is absent exactly when the trimmed name
    contains a space.  The hook-based copy follows the table on the other
    nine fields, but a violated [postcode] or [contactPhone] carries no
    message there: the entry is absent for every non-empty value, so the
    end-to-end record with the postcode "12a4", for which the table has
    "Postcode must be 4–10 digits", comes back without any entry. *)
Theorem C9_validateContact_total (r : ContactFormValues) :
  (exists e, ContactForm.validateContact r = Resolved e /\
             (forall k, e !! k = Rules.contactError r k) /\
             (e !! "contactName" = None <->
                contactName r <> [] /\ In JS.SPACE (JS.trim (contactName r))) /\
             dom e ⊆ list_to_set Rules.contactFields) /\
  (exists e, ContactFormHooks.validateContact r = Resolved e /\
             (forall k, k <> "postcode"%string -> k <> "contactPhone"%string ->
                        e !! k = Rules.contactError r k) /\
             (e !! "postcode" = None <-> postcode r <> []) /\
             (e !! "postcode" = Some "Postcode is required" <-> postcode r = []) /\
             (e !! "contactPhone" = None <-> contactPhone r <> []) /\
             (e !! "contactPhone" = Some "Contact phone is required" <->
                contactPhone r = []) /\
             dom e ⊆ list_to_set Rules.contactFields) /\
  (Rules.contactError (setFieldValue Samples.joLee (SetPostcode (JS.lit "12a4")))
     "postcode" = Some "Postcode must be 4–10 digits"%string /\
   ContactForm.validateContact (setFieldValue Samples.joLee (SetPostcode (JS.lit "12a4")))
     = Resolved {[ "postcode" := "Postcode must be 4–10 digits" ]} /\
   ContactFormHooks.validateContact
     (setFieldValue Samples.joLee (SetPostcode (JS.lit "12a4"))) = Resolved ∅).
Proof.
  split; [|split; [|repeat split; vm_compute; reflexivity]].
  - destruct (ContactFacts.validateContact_entries r) as (e & He & Hk).
    exists e. split; [exact He|]. split; [exact Hk|]. split.
    + rewrite Hk.
      change (Rules.contactError r "contactName")
        with (Rules.requiredAnd (contactName r) "Contact name is required"
                (Rules.twoPieces (contactName r))
                "Please enter at least first and last name").
      destruct (ContactFacts.requiredAnd_cases (contactName r)
                  "Contact name is required"
                  "Please enter at least first and last name"
                  (Rules.twoPieces (contactName r))) as (H1 & _ & _); [discriminate|].
      rewrite H1. unfold Rules.twoPieces.
      now rewrite Nat.leb_le, JSFacts.split_two.
    + apply elem_of_subseteq. intros k Hin. apply elem_of_dom in Hin as [m Hm].
      apply elem_of_list_to_set. apply (ContactFacts.contactError_fields r).
      rewrite <- Hk. congruence.
  - destruct (ContactFacts.validateContact_hooks_entries r) as (e & He & Hk).
    exists e. split; [exact He|]. split; [|split; [|split; [|split; [|split]]]].
    + intros k Hp Hc. rewrite Hk. unfold Rules.hooksContactError.
      destruct (String.eqb_spec k "postcode"); [contradiction|].
      destruct (String.eqb_spec k "contactPhone"); [contradiction|]. reflexivity.
    + rewrite Hk. unfold Rules.hooksContactError. simpl (String.eqb _ _). cbv beta iota.
      destruct (postcode r); simpl; split; congruence.
    + rewrite Hk. unfold Rules.hooksContactError. simpl (String.eqb _ _). cbv beta iota.
      destruct (postcode r); simpl; split; congruence.
    + rewrite Hk. unfold Rules.hooksContactError. simpl (String.eqb _ _). cbv beta iota.
      destruct (contactPhone r); simpl; split; congruence.
    + rewrite Hk. unfold Rules.hooksContactError. simpl (String.eqb _ _). cbv beta iota.
      destruct (contactPhone r); simpl; split; congruence.
    + apply elem_of_subseteq. intros k Hin. apply elem_of_dom in Hin as [m Hm].
      apply elem_of_list_to_set. apply (ContactFacts.hooksContactError_fields r).
      rewrite <- Hk. congruence.
Qed.

(** C1 as stated fails: the names "Jane<TAB>Doe" and "Jane<NBSP>Doe" are
    non-empty and their trimmed values split on whitespace into the two
    tokens "Jane" and "Doe", yet the validator reports "Please enter at
    least first and last name" for both. *)
Lemma C1_tab_separated_name_rejected :
  JS.truthy (contactName Samples.joLeeTabbed) = true /\
  Rules.tokens (JS.trim (contactName Samples.joLeeTabbed))
    = [JS.lit "Jane"; JS.lit "Doe"] /\
  Rules.twoTokens (contactName Samples.joLeeTabbed) = true /\
  ContactForm.validateContact Samples.joLeeTabbed
    = Resolved {[ "contactName" := "Please enter at least first and last name" ]} /\
  JS.truthy (contactName Samples.joLeeNbsp) = true /\
  Rules.tokens (JS.trim (contactName Samples.joLeeNbsp))
    = [JS.lit "Jane"; JS.lit "Doe"] /\
  ContactForm.validateContact Samples.joLeeNbsp
    = Resolved {[ "contactName" := "Please enter at least first and last name" ]}.
Proof. repeat split; vm_compute; reflexivity. Qed.

(** C1, amended: for every contact record the [contactName] entry is absent
    exactly when the name is non-empty and its trimmed value splits on the
    space character into at least two pieces, that is, contains a space;
    every name accepted this way has at least two whitespace-separated
    tokens.  The entry is "Contact name is required" exactly on the empty
    name and "Please enter at least first and last name" exactly on a
    non-empty name whose trimmed value has no space.  "Jane Doe" and
    "  Jane   Doe  " are valid, "Jane" is not. *)
Theorem C1_contactName_rule :
  (forall r : ContactFormValues,
      exists e, ContactForm.validateContact r = Resolved e /\
        (e !! "contactName" = None <->
           contactName r <> [] /\
           2 <= length (JS.split JS.SPACE (JS.trim (contactName r)))) /\
        (e !! "contactName" = None <->
           contactName r <> [] /\ In JS.SPACE (JS.trim (contactName r))) /\
        (e !! "contactName" = Some "Contact name is required" <->
           contactName r = []) /\
        (e !! "contactName" = Some "Please enter at least first and last name" <->
           contactName r <> [] /\ ~ In JS.SPACE (JS.trim (contactName r))) /\
        (e !! "contactName" = None -> Rules.twoTokens (contactName r) = true)) /\
  (forall r : ContactFormValues,
      entryIs (ContactForm.validateContact
                 (setFieldValue r (SetContactName (JS.lit "Jane Doe"))))
              "contactName" None /\
      entryIs (ContactForm.validateContact
                 (setFieldValue r (SetContactName (JS.lit "Jane"))))
              "contactName" (Some "Please enter at least first and last name") /\
      entryIs (ContactForm.validateContact
                 (setFieldValue r (SetContactName (JS.lit "  Jane   Doe  "))))
              "contactName" None /\
      entryIs (ContactForm.validateContact (setFieldValue r (SetContactName [])))
              "contactName" (Some "Contact name is required")).
Proof.
  split.
  - intros r. entry_of r "contactName".
    destruct (ContactFacts.requiredAnd_cases (contactName r)
                "Contact name is required"
                "Please enter at least first and last name"
                (Rules.twoPieces (contactName r))) as (H1 & H2 & H3); [discriminate|].
    assert (Hlen : Rules.twoPieces (contactName r) = true <->
                   2 <= length (JS.split JS.SPACE (JS.trim (contactName r))))
      by apply Nat.leb_le.
    assert (Hin : Rules.twoPieces (contactName r) = true <->
                  In JS.SPACE (JS.trim (contactName r)))
      by (rewrite Hlen; apply JSFacts.split_two).
    rewrite H2, H3, <- not_true_iff_false, <- Hlen.
    split; [exact H1|]. split; [rewrite <- Hin; exact H1|].
    split; [reflexivity|]. split; [rewrite Hin; reflexivity|].
    intros Hnone. apply H1 in Hnone as [_ Hok].
    now apply TokenFacts.twoPieces_twoTokens.
  - intros r. destruct r. repeat split; apply entryIs_contact.
Qed.

(** C4: for every contact record and each of the seven fields with a
    required check and a shape or length check, Yup reports at most one
    error for the field, the two messages differ, the required message is
    the entry exactly when the value is empty, the shape message is the
    entry exactly when the value is non-empty and fails the shape rule, and
    there is no entry exactly when the value is non-empty and passes it. *)
Theorem C4_required_or_shape (r : ContactFormValues) :
  exists e inner,
    ContactForm.validateContact r = Resolved e /\
    Yup.validateObject ContactForm.contactSchema
      (prepareDataForValidation (contactValues r)) = Value.Ok inner /\
    Forall (fun rule =>
              Rules.requiredMessage rule <> Rules.shapeMessage rule /\
              length (errorsAt (Rules.field rule) inner) <= 1 /\
              (e !! Rules.field rule = Some (Rules.requiredMessage rule) <->
                 Rules.value rule = []) /\
              (e !! Rules.field rule = Some (Rules.shapeMessage rule) <->
                 Rules.value rule <> [] /\ Rules.shapeOk rule = false) /\
              (e !! Rules.field rule = None <->
                 Rules.value rule <> [] /\ Rules.shapeOk rule = true))
           (Rules.shapeRules r).
Proof.
  destruct (ContactFacts.validateContact_entries r) as (e & He & Hk).
  exists e, (fieldErrors (Rules.contactError r) Rules.contactFields).
  split; [exact He|]. split; [apply ContactFacts.contactSchema_inner|].
  unfold Rules.shapeRules.
  repeat apply List.Forall_cons; try apply List.Forall_nil;
    cbn [Rules.field Rules.value Rules.requiredMessage Rules.shapeOk Rules.shapeMessage];
    rewrite Hk;
    rewrite FormikFacts.errorsAt_fieldErrors by apply ContactFacts.contactFields_NoDup;
    (split; [discriminate|]);
    (split; [destruct (bool_decide _); [destruct (Rules.contactError r _)|]; simpl; lia|]);
    unfold Rules.contactError; simpl (String.eqb _ _); cbv beta iota;
    match goal with
    | |- context [Rules.requiredAnd ?x ?req ?ok ?shape] =>
        destruct (ContactFacts.requiredAnd_cases x req shape ok) as (H1 & H2 & H3);
        [discriminate | auto]
    end.
Qed.

(** The two copies agree on every field but [postcode] and
    [contactPhone]. *)
Lemma copies_agree_elsewhere (r : ContactFormValues) :
  exists e e',
    ContactForm.validateContact r = Resolved e /\
    ContactFormHooks.validateContact r = Resolved e' /\
    forall k, k <> "postcode"%string -> k <> "contactPhone"%string ->
              e' !! k = e !! k.
Proof.
  destruct (ContactFacts.validateContact_entries r) as (e & He & Hk).
  destruct (ContactFacts.validateContact_hooks_entries r) as (e' & He' & Hk').
  exists e, e'. split; [exact He|]. split; [exact He'|].
  intros k Hp Hc. rewrite Hk, Hk'. unfold Rules.hooksContactError.
  destruct (String.eqb_spec k "postcode"); [contradiction|].
  destruct (String.eqb_spec k "contactPhone"); [contradiction|]. reflexivity.
Qed.

(** C10: the two copies of the component do not compute the same result.
    On the end-to-end record with the postcode "123" the validator of
    ContactForm.tsx reports "Postcode must be 4–10 digits" and the form is
    not valid; the hook-based copy reports nothing and the form is valid. *)
Theorem C10_copies_disagree :
  ContactForm.validateContact Samples.joLeeShortPostcode
    = Resolved {[ "postcode" := "Postcode must be 4–10 digits" ]} /\
  isValid {[ "postcode" := "Postcode must be 4–10 digits" ]} = false /\
  ContactFormHooks.validateContact Samples.joLeeShortPostcode = Resolved ∅ /\
  isValid ∅ = true.
Proof. repeat split; vm_compute; reflexivity. Qed.

(** The hook-based copy accepts every non-empty postcode and every
    non-empty contact phone. *)
Lemma hooks_only_required (r : ContactFormValues) :
  exists e, ContactFormHooks.validateContact r = Resolved e /\
    (e !! "postcode" = None <-> postcode r <> []) /\
    (e !! "postcode" = Some "Postcode is required" <-> postcode r = []) /\
    (e !! "contactPhone" = None <-> contactPhone r <> []) /\
    (e !! "contactPhone" = Some "Contact phone is required" <-> contactPhone r = []).
Proof.
  destruct (ContactFacts.validateContact_hooks_entries r) as (e & He & Hk).
  exists e. split; [exact He|]. rewrite !Hk.
  unfold Rules.hooksContactError. simpl (String.eqb _ _). cbv beta iota.
  destruct (postcode r), (contactPhone r); simpl; repeat split; congruence.
Qed.

(** C2: the hook-based copy of the component breaks the postcode rule.  It
    declares [postcode] with [required] only, so its entry is absent for
    every non-empty postcode: "123", "12345678901" and "12a4", which the
    rule calls invalid, get no entry whatever the other fields hold, and
    the end-to-end record with the postcode "123" is valid there. *)
Theorem C2_hooks_accept_any_postcode :
  (forall r : ContactFormValues,
      exists e, ContactFormHooks.validateContact r = Resolved e /\
        (e !! "postcode" = None <-> postcode r <> []) /\
        (e !! "postcode" = Some "Postcode is required" <-> postcode r = [])) /\
  (forall r : ContactFormValues,
      entryIs (ContactFormHooks.validateContact
                 (setFieldValue r (SetPostcode (JS.lit "123"))))
              "postcode" None /\
      entryIs (ContactFormHooks.validateContact
                 (setFieldValue r (SetPostcode (JS.lit "12345678901"))))
              "postcode" None /\
      entryIs (ContactFormHooks.validateContact
                 (setFieldValue r (SetPostcode (JS.lit "12a4"))))
              "postcode" None) /\
  ContactFormHooks.validateContact Samples.joLeeShortPostcode = Resolved ∅ /\
  isValid ∅ = true.
Proof.
  split; [|split; [|split; vm_compute; reflexivity]].
  - intros r. destruct (hooks_only_required r) as (e & He & H1 & H2 & _).
    exists e. auto.
  - intros r. destruct r. repeat split; apply entryIs_hooks.
Qed.

(** ** The form session *)

Module SessionFacts.
Import Session.

(** A validation run stores what the validator returns for the values. *)
Lemma revalidate_resolved old v :
  Resolved (revalidate old v) = ContactForm.validateContact v.
Proof.
  unfold revalidate.
  destruct (ContactFacts.validateContact_entries v) as (e & -> & _). reflexivity.
Qed.

Lemma Resolved_inj (e1 e2 : gmap string string) :
  Resolved e1 = Resolved e2 -> e1 = e2.
Proof. congruence. Qed.

Lemma step_errors st ev :
  Resolved (errors (step st ev)) = ContactForm.validateContact (values (step st ev)).
Proof. destruct ev; apply revalidate_resolved. Qed.

Lemma run_snoc st evs ev : run st (evs ++ [ev]) = step (run st evs) ev.
Proof. unfold run. now rewrite fold_left_app. Qed.

(** Edits of different fields commute. *)
Lemma setFieldValue_comm r e1 e2 :
  fieldOf e1 <> fieldOf e2 ->
  setFieldValue (setFieldValue r e1) e2 = setFieldValue (setFieldValue r e2) e1.
Proof.
  destruct r, e1, e2; intros H; try reflexivity; exfalso; apply H; reflexivity.
Qed.

End SessionFacts.

(** A first session: blurring the untouched e-mail field validates the
    initial values, and every required field reports. *)
Example first_blur :
  map_to_list (Session.errors (Session.step Session.initialState (Session.Blur "email")))
  ≡ₚ [ ("companyName", "Company name is required");
       ("address", "Address is required");
       ("postcode", "Postcode is required");
       ("contactName", "Contact name is required");
       ("contactPhone", "Contact phone is required");
       ("email", "Email is required");
       ("idea", "Idea is required");
       ("nda", "You must agree to NDA") ]%string.
Proof.
  apply (bool_decide_unpack _). vm_compute. exact I.
Qed.

(** C8: validation is a pure function of the record.  Two calls on the
    same record return the same result.  In a form session, after any
    history of changes, blurs and submits, the stored errors are the result
    of validating the current values: they do not depend on the state the
    session started from or on the errors of earlier runs; two histories
    that end in the same values end in the same errors; validating again
    without a change leaves the errors as they are; and edits of different
    fields may be made in either order. *)
Theorem C8_validation_is_pure :
  (forall r1 r2 : ContactFormValues,
      r1 = r2 -> ContactForm.validateContact r1 = ContactForm.validateContact r2) /\
  (forall st evs ev,
      Resolved (Session.errors (Session.run st (evs ++ [ev]))) =
      ContactForm.validateContact (Session.values (Session.run st (evs ++ [ev])))) /\
  (forall st1 st2 h1 h2 ev1 ev2,
      Session.values (Session.run st1 (h1 ++ [ev1])) =
      Session.values (Session.run st2 (h2 ++ [ev2])) ->
      Session.errors (Session.run st1 (h1 ++ [ev1])) =
      Session.errors (Session.run st2 (h2 ++ [ev2]))) /\
  (forall st ev field,
      Session.errors (Session.step (Session.step st ev) (Session.Blur field)) =
      Session.errors (Session.step st ev)) /\
  (forall st e1 e2,
      fieldOf e1 <> fieldOf e2 ->
      Session.errors (Session.run st [Session.Change e1; Session.Change e2]) =
      Session.errors (Session.run st [Session.Change e2; Session.Change e1])).
Proof.
  split; [now intros r1 r2 ->|].
  split; [intros st evs ev; rewrite SessionFacts.run_snoc; apply SessionFacts.step_errors|].
  split; [|split].
  - intros st1 st2 h1 h2 ev1 ev2 Hv. apply SessionFacts.Resolved_inj.
    rewrite !SessionFacts.run_snoc, !SessionFacts.step_errors,
      <- !SessionFacts.run_snoc. now rewrite Hv.
  - intros st ev field. apply SessionFacts.Resolved_inj.
    rewrite !SessionFacts.step_errors. reflexivity.
  - intros st e1 e2 Hne. apply SessionFacts.Resolved_inj.
    change [Session.Change e1; Session.Change e2]
      with ([Session.Change e1] ++ [Session.Change e2]).
    change [Session.Change e2; Session.Change e1]
      with ([Session.Change e2] ++ [Session.Change e1]).
    rewrite !SessionFacts.run_snoc, !SessionFacts.step_errors.
    change (Session.values (Session.step (Session.run st [Session.Change e1])
                                         (Session.Change e2)))
      with (setFieldValue (setFieldValue (Session.values st) e1) e2).
    change (Session.values (Session.step (Session.run st [Session.Change e2])
                                         (Session.Change e1)))
      with (setFieldValue (setFieldValue (Session.values st) e2) e1).
    now rewrite (SessionFacts.setFieldValue_comm _ e1 e2 Hne).
Qed.

(** ** The exported schemas and the locale messages *)

(** The newsletter schemas of the repository differ in their messages
    only: the hook-based copy uses the locale messages of Yup, the exported
    schema says "Required". *)
Lemma newsletter_messages :
  ContactFormHooks.validateNewsletter {| newsletterEmail := [] |}
    = Resolved {[ "email" := "email is a required field" ]} /\
  ContactFormHooks.validateNewsletter {| newsletterEmail := JS.lit "not-an-email" |}
    = Resolved {[ "email" := "email must be a valid email" ]} /\
  ContactFormHooks.validateNewsletter {| newsletterEmail := JS.lit "a@b.com" |}
    = Resolved ∅ /\
  runValidationSchema Validation.newsletterSchema
      (newsletterValues {| newsletterEmail := [] |})
    = Resolved {[ "email" := "Required" ]} /\
  runValidationSchema Validation.newsletterSchema
      (newsletterValues {| newsletterEmail := JS.lit "not-an-email" |})
    = Resolved {[ "email" := "Invalid email" ]}.
Proof. repeat split; vm_compute; reflexivity. Qed.

(** The exported contact schema accepts the end-to-end record; it wants
    exactly two words in [contactName], so it rejects a padded name that the
    components accept, and it accepts a tab between the words. *)
Lemma exported_contactSchema :
  runValidationSchema Validation.contactSchema (contactValues Samples.joLee)
    = Resolved ∅ /\
  entryIs (runValidationSchema Validation.contactSchema
             (contactValues (setFieldValue Samples.joLee
                               (SetContactName (JS.lit "  Jane   Doe  ")))))
          "contactName"
          (Some ("contactName must match the following: "
                 ++ Yup.dquote ++ "/^\S+\s+\S+$/" ++ Yup.dquote)%string) /\
  runValidationSchema Validation.contactSchema (contactValues Samples.joLeeTabbed)
    = Resolved ∅ /\
  entryIs (runValidationSchema Validation.contactSchema
             (contactValues Samples.joLeeShortPostcode))
          "postcode" (Some "postcode must be at least 4 characters").
Proof.
  repeat split; try (vm_compute; reflexivity);
    eexists; (split; [vm_compute; reflexivity | vm_compute; reflexivity]).
Qed.

(** Without Formik's preparation of the values Yup reports both messages
    for an empty field that has a length rule. *)
Lemma unprepared_empty_address :
  errorsAt "address"
    (match Yup.validateObject ContactForm.contactSchema
             (contactValues Session.initialValues) with
     | Value.Ok inner => inner
     | Value.Throw _ => []
     end)
  = [ Yup.mkError "address" "Address must be at least 5 characters";
      Yup.mkError "address" "Address is required" ].
Proof. vm_compute. reflexivity. Qed.

(* ===================================================================== *)
(** * Further properties of the components *)
(* ===================================================================== *)

(** ** The field rules of ContactForm.tsx *)

(** The contact-phone rule of ContactForm.tsx: the [contactPhone] entry is
    absent exactly when the value has at least ten characters, all of them
    decimal digits; it is "Contact phone is required" exactly on the empty
    value and "Contact phone must be at least 10 digits" on every other
    value.  Ten digits pass, nine do not, and a leading "+" is refused. *)
Theorem contactPhone_rule :
  (forall r : ContactFormValues,
      exists e, ContactForm.validateContact r = Resolved e /\
        (e !! "contactPhone" = None <->
           10 <= length (contactPhone r) /\
           Forall Rules.decimalDigit (contactPhone r)) /\
        (e !! "contactPhone" = Some "Contact phone is required" <->
           contactPhone r = []) /\
        (e !! "contactPhone" = Some "Contact phone must be at least 10 digits" <->
           contactPhone r <> [] /\
           ~ (10 <= length (contactPhone r) /\
              Forall Rules.decimalDigit (contactPhone r)))) /\
  (forall r : ContactFormValues,
      entryIs (ContactForm.validateContact
                 (setFieldValue r (SetContactPhone (JS.lit "1234567890"))))
              "contactPhone" None /\
      entryIs (ContactForm.validateContact
                 (setFieldValue r (SetContactPhone (JS.lit "123456789"))))
              "contactPhone" (Some "Contact phone must be at least 10 digits") /\
      entryIs (ContactForm.validateContact
                 (setFieldValue r (SetContactPhone (JS.lit "+441234567890"))))
              "contactPhone" (Some "Contact phone must be at least 10 digits")).
Proof.
  split.
  - intros r. entry_of r "contactPhone".
    destruct (ContactFacts.requiredAnd_cases (contactPhone r)
                "Contact phone is required"
                "Contact phone must be at least 10 digits"
                ((10 <=? length (contactPhone r)) && Rules.digits (contactPhone r)))
      as (H1 & H2 & H3); [discriminate|].
    rewrite H1, H2, H3.
    assert (Hok : (10 <=? length (contactPhone r)) && Rules.digits (contactPhone r) = true <->
                  10 <= length (contactPhone r) /\
                  Forall Rules.decimalDigit (contactPhone r)).
    { rewrite !andb_true_iff, !Nat.leb_le, ContactFacts.digits_Forall. tauto. }
    rewrite <- not_true_iff_false, Hok.
    assert (Hne : 10 <= length (contactPhone r) -> contactPhone r <> []).
    { destruct (contactPhone r); simpl; [lia | discriminate]. }
    tauto.
  - intros r. destruct r. repeat split; apply entryIs_contact.
Qed.

(** A required field with a minimum length: what [requiredAnd] reports in
    terms of the length alone. *)
Lemma requiredAnd_min (x : JS.str) (n : nat) (req shape : string) :
  0 < n -> req <> shape ->
  (Rules.requiredAnd x req (n <=? length x) shape = None <-> n <= length x) /\
  (Rules.requiredAnd x req (n <=? length x) shape = Some req <-> length x = 0) /\
  (Rules.requiredAnd x req (n <=? length x) shape = Some shape <->
     0 < length x < n).
Proof.
  intros Hn Hne.
  destruct (ContactFacts.requiredAnd_cases x req shape (n <=? length x) Hne)
    as (H1 & H2 & H3).
  rewrite H1, H2, H3, <- not_true_iff_false, !Nat.leb_le.
  assert (Hx : x = [] <-> length x = 0) by (destruct x; simpl; split; (lia || congruence)).
  rewrite Hx. lia.
Qed.

(** The length rules of ContactForm.tsx.  [companyName], [address] and
    [idea] are judged by their length in UTF-16 code units alone, without
    trimming: the entry is absent exactly from 2, 5 and 30 characters on,
    it is the required message exactly on the empty value and the length
    message exactly on a shorter non-empty value.  So a value made of
    blanks only passes once it is long enough. *)
Theorem length_rules (r : ContactFormValues) :
  exists e, ContactForm.validateContact r = Resolved e /\
    ((e !! "companyName" = None <-> 2 <= length (companyName r)) /\
     (e !! "companyName" = Some "Company name is required" <->
        length (companyName r) = 0) /\
     (e !! "companyName" = Some "Company name must be at least 2 characters" <->
        0 < length (companyName r) < 2)) /\
    ((e !! "address" = None <-> 5 <= length (address r)) /\
     (e !! "address" = Some "Address is required" <-> length (address r) = 0) /\
     (e !! "address" = Some "Address must be at least 5 characters" <->
        0 < length (address r) < 5)) /\
    ((e !! "idea" = None <-> 30 <= length (idea r)) /\
     (e !! "idea" = Some "Idea is required" <-> length (idea r) = 0) /\
     (e !! "idea" = Some "Idea description must be at least 30 characters" <->
        0 < length (idea r) < 30)).
Proof.
  destruct (ContactFacts.validateContact_entries r) as (e & He & Hk).
  exists e. split; [exact He|]. rewrite !Hk.
  unfold Rules.contactError. simpl (String.eqb _ _). cbv beta iota.
  split; [|split]; apply requiredAnd_min; (lia || discriminate).
Qed.

(** What an edit leaves alone in the rule table. *)
Lemma contactError_frame r ed k :
  k <> fieldOf ed ->
  Rules.contactError (setFieldValue r ed) k = Rules.contactError r k.
Proof.
  intros Hk. unfold Rules.contactError.
  repeat match goal with
         | |- context [String.eqb k ?s] =>
             destruct (String.eqb_spec k s) as [-> | ?]
         end;
    destruct r, ed; try reflexivity; exfalso; apply Hk; reflexivity.
Qed.

(** The rules of ContactForm.tsx are independent: an edit of one field
    leaves the entry of every other field as it was, and an edit of
    [natureOfBusiness] or [linkedin], which have no rule, changes nothing
    at all. *)
Theorem edits_are_local (r : ContactFormValues) (ed : edit) :
  (exists e1 e2,
      ContactForm.validateContact r = Resolved e1 /\
      ContactForm.validateContact (setFieldValue r ed) = Resolved e2 /\
      forall k, k <> fieldOf ed -> e2 !! k = e1 !! k) /\
  (forall s,
      ContactForm.validateContact (setFieldValue r (SetNatureOfBusiness s))
        = ContactForm.validateContact r /\
      ContactForm.validateContact (setFieldValue r (SetLinkedin s))
        = ContactForm.validateContact r).
Proof.
  split.
  - destruct (ContactFacts.validateContact_entries r) as (e1 & He1 & Hk1).
    destruct (ContactFacts.validateContact_entries (setFieldValue r ed))
      as (e2 & He2 & Hk2).
    exists e1, e2. split; [exact He1|]. split; [exact He2|].
    intros k Hk. rewrite Hk1, Hk2. now apply contactError_frame.
  - intros s.
    destruct (ContactFacts.validateContact_entries r) as (e1 & He1 & Hk1).
    split.
    + destruct (ContactFacts.validateContact_entries
                  (setFieldValue r (SetNatureOfBusiness s))) as (e2 & He2 & Hk2).
      rewrite He1, He2. f_equal. apply map_eq. intros k. rewrite Hk1, Hk2.
      destruct r; reflexivity.
    + destruct (ContactFacts.validateContact_entries
                  (setFieldValue r (SetLinkedin s))) as (e2 & He2 & Hk2).
      rewrite He1, He2. f_equal. apply map_eq. intros k. rewrite Hk1, Hk2.
      destruct r; reflexivity.
Qed.

(** ** The hook-based copy *)

(** The contact phone of the hook-based copy: declared with [required]
    only, its entry is absent for every non-empty value, digits or not, and
    is "Contact phone is required" exactly on the empty value; the message
    about ten digits never appears. *)
Theorem hooks_contactPhone_rule (r : ContactFormValues) :
  exists e, ContactFormHooks.validateContact r = Resolved e /\
    (e !! "contactPhone" = None <-> contactPhone r <> []) /\
    (e !! "contactPhone" = Some "Contact phone is required" <->
       contactPhone r = []) /\
    e !! "contactPhone" <> Some "Contact phone must be at least 10 digits"%string.
Proof.
  destruct (ContactFacts.validateContact_hooks_entries r) as (e & He & Hk).
  exists e. split; [exact He|]. rewrite !Hk.
  unfold Rules.hooksContactError. simpl (String.eqb _ _). cbv beta iota.
  destruct (contactPhone r); simpl; repeat split; congruence.
Qed.

(** ** The exported schemas of src/validation *)

Module ExportedFacts.
Import Value.

(** [/^[p]+$/] accepts the non-empty words of characters of [p]. *)
Lemma matches_plus_class p s :
  RegExp.matches (RegExp.plus (RegExp.Class p)) s = true <->
  s <> [] /\ forallb p s = true.
Proof.
  rewrite RegExpFacts.matches_lang. unfold RegExp.plus.
  rewrite RegExpFacts.lang_Seq. split.
  - intros (s1 & s2 & -> & H1 & H2).
    apply RegExpFacts.lang_Class in H1 as (c & -> & Hc).
    apply RegExpFacts.lang_star_class in H2.
    split; [discriminate|]. simpl. now rewrite Hc, H2.
  - intros [Hne Hf]. destruct s as [| c s]; [congruence|].
    simpl in Hf. apply andb_true_iff in Hf as [Hc Hs].
    exists [c], s. split; [reflexivity|]. split.
    + apply RegExpFacts.lang_Class. eauto.
    + now apply RegExpFacts.lang_star_class.
Qed.

Lemma lang_plus_class p s :
  RegExp.lang (RegExp.plus (RegExp.Class p)) s <-> s <> [] /\ forallb p s = true.
Proof. rewrite <- RegExpFacts.matches_lang. apply matches_plus_class. Qed.

(** [/^\S+\s+\S+$/] accepts two words with a gap between them. *)
Lemma re_two_words_spec s :
  RegExp.matches (Yup.body re_two_words) s = true <-> Exported.twoWords s.
Proof.
  rewrite RegExpFacts.matches_lang. unfold re_two_words. simpl Yup.body.
  unfold RegExp.nonspace, RegExp.space.
  rewrite RegExpFacts.lang_Seq. split.
  - intros (a & rest & -> & Ha & Hrest).
    apply RegExpFacts.lang_Seq in Hrest as (w & b & -> & Hw & Hb).
    apply lang_plus_class in Ha, Hw, Hb. exists a, w, b. now repeat split.
  - intros (a & w & b & -> & Ha & Hw & Hb). exists a, (w ++ b).
    split; [reflexivity|]. split; [now apply lang_plus_class|].
    apply RegExpFacts.lang_Seq. exists w, b.
    split; [reflexivity|]. split; now apply lang_plus_class.
Qed.

Lemma re_digits_spec x :
  RegExp.matches (Yup.body re_digits) x = true <-> x <> [] /\ Rules.digits x = true.
Proof. apply matches_plus_class. Qed.

(** Tokens of a string that starts with a word. *)
Lemma tokensFrom_word a rest cur :
  forallb RegExp.isNonSpace a = true ->
  Rules.tokensFrom cur (a ++ rest) = Rules.tokensFrom (rev a ++ cur) rest.
Proof.
  revert cur. induction a as [| c a IH]; intros cur Ha; [reflexivity|].
  simpl in Ha. apply andb_true_iff in Ha as [Hc Ha].
  unfold RegExp.isNonSpace in Hc. apply negb_true_iff in Hc.
  simpl. rewrite Hc, IH by exact Ha. now rewrite <- app_assoc.
Qed.

Lemma tokensFrom_blanks w rest :
  forallb JS.isWhiteSpace w = true ->
  Rules.tokensFrom [] (w ++ rest) = Rules.tokensFrom [] rest.
Proof.
  induction w as [| c w IH]; intros Hw; [reflexivity|].
  simpl in Hw. apply andb_true_iff in Hw as [Hc Hw].
  simpl. rewrite Hc. now apply IH.
Qed.

Lemma tokensFrom_gap w rest cur :
  w <> [] -> forallb JS.isWhiteSpace w = true -> cur <> [] ->
  Rules.tokensFrom cur (w ++ rest) = rev cur :: Rules.tokensFrom [] rest.
Proof.
  intros Hne Hw Hcur. destruct w as [| c w]; [congruence|].
  simpl in Hw. apply andb_true_iff in Hw as [Hc Hw].
  simpl. rewrite Hc. destruct cur; [congruence|].
  now rewrite tokensFrom_blanks.
Qed.

Lemma tokensFrom_end cur : cur <> [] -> Rules.tokensFrom cur [] = [rev cur].
Proof. destruct cur; [congruence | reflexivity]. Qed.

Lemma rev_nonempty (a : JS.str) : a <> [] -> rev a <> [].
Proof.
  intros Ha E. apply (f_equal (@rev N)) in E. rewrite rev_involutive in E. now subst.
Qed.

(** A string of two words has exactly these two tokens. *)
Lemma twoWords_tokens a w b :
  Exported.word a -> Exported.gap w -> Exported.word b ->
  Rules.tokens (a ++ w ++ b) = [a; b].
Proof.
  intros [Ha Fa] [Hw Fw] [Hb Fb]. unfold Rules.tokens.
  rewrite tokensFrom_word by exact Fa. rewrite app_nil_r.
  rewrite tokensFrom_gap; [| exact Hw | exact Fw | now apply rev_nonempty].
  rewrite rev_involutive. f_equal.
  rewrite <- (app_nil_r b), tokensFrom_word by exact Fb.
  rewrite app_nil_r, tokensFrom_end by now apply rev_nonempty.
  now rewrite rev_involutive, app_nil_r.
Qed.

Lemma trimStart_word a rest :
  Exported.word a -> JS.trimStart (a ++ rest) = a ++ rest.
Proof.
  intros [Ha Fa]. destruct a as [| c a]; [congruence|].
  simpl in Fa. apply andb_true_iff in Fa as [Hc _].
  unfold RegExp.isNonSpace in Hc. apply negb_true_iff in Hc.
  simpl. now rewrite Hc.
Qed.

Lemma forallb_reverse (p : N -> bool) (a : JS.str) :
  forallb p (rev a) = forallb p a.
Proof.
  induction a as [| c a IH]; [reflexivity|].
  simpl. rewrite forallb_app, IH. simpl. rewrite andb_true_r. apply andb_comm.
Qed.

Lemma word_rev a : Exported.word a -> Exported.word (rev a).
Proof.
  intros [Ha Fa]. split; [now apply rev_nonempty|].
  now rewrite forallb_reverse.
Qed.

(** A string of two words is not changed by [trim]. *)
Lemma twoWords_trim a w b :
  Exported.word a -> Exported.word b -> JS.trim (a ++ w ++ b) = a ++ w ++ b.
Proof.
  intros Ha Hb. unfold JS.trim, JS.trimEnd.
  rewrite trimStart_word by exact Ha.
  rewrite !rev_app_distr, <- app_assoc.
  rewrite trimStart_word by now apply word_rev.
  now rewrite !rev_app_distr, !rev_involutive, <- app_assoc.
Qed.

End ExportedFacts.

(** ** Validity under the exported contact schema *)

Module ExportedSchema.
Import Value.

Local Ltac raw :=
  unfold Exported.check; simpl Exported.reach; unfold Yup.validate;
  cbn -[RegExp.matches Nat.leb Nat.eqb length Yup.matchesFn Yup.rEmail Yup.render
        re_digits re_two_words re_phone re_postcode];
  rewrite ?YupFacts.matchesFn_Str; cbn [bind].

Local Ltac flags :=
  repeat match goal with
         | |- context [if ?b then _ else _] =>
             let E := fresh "E" in destruct b eqn:E
         end.

(** What a string field of a schema reports on a raw string. *)
Lemma raw_min key n (m1 m2 : option string) x :
  0 < n ->
  exists errs,
    Yup.validate key (Yup.string .> Yup.min n m1 .> Yup.required m2) (Str x) = Ok errs /\
    (errs = [] <-> n <= length x).
Proof.
  intros Hn. eexists. split.
  - unfold Yup.validate.
    cbn -[Nat.leb Nat.eqb length Yup.render]. reflexivity.
  - destruct (Nat.leb_spec n (length x)), (Nat.eqb_spec (length x) 0); simpl;
      split; (lia || discriminate || reflexivity || idtac); intros; lia.
Qed.

Lemma raw_matches key re (m1 m2 : option string) x :
  (RegExp.matches (Yup.body re) x = true -> x <> []) ->
  exists errs,
    Yup.validate key (Yup.string .> Yup.matches re m1 .> Yup.required m2) (Str x) = Ok errs /\
    (errs = [] <-> RegExp.matches (Yup.body re) x = true).
Proof.
  intros Hne. eexists. split.
  - unfold Yup.validate.
    cbn -[RegExp.matches Nat.eqb length Yup.render Yup.matchesFn].
    rewrite YupFacts.matchesFn_Str. cbn [bind]. reflexivity.
  - destruct (RegExp.matches (Yup.body re) x) eqn:Em; simpl.
    + assert (Hx : x <> []) by now apply Hne.
      destruct x; [congruence|]. simpl. tauto.
    + split; [discriminate | discriminate].
Qed.

Lemma raw_email key (m1 m2 : option string) x :
  exists errs,
    Yup.validate key (Yup.string .> Yup.email m1 .> Yup.required m2) (Str x) = Ok errs /\
    (errs = [] <-> x <> [] /\ Rules.isEmail x = true).
Proof.
  destruct x as [| c x].
  - eexists. split; [reflexivity|]. simpl. split; [discriminate | tauto].
  - eexists. split.
    + unfold Yup.validate.
      cbn -[RegExp.matches Nat.eqb length Yup.render Yup.matchesFn].
      rewrite YupFacts.matchesFn_Str_nonempty. cbn [bind]. reflexivity.
    + unfold Rules.isEmail. destruct (RegExp.matches _ _); simpl.
      * split; [intros _; split; [discriminate | reflexivity] | reflexivity].
      * split; [discriminate | intros [_ H]; discriminate].
Qed.

Lemma phone_nonempty x :
  RegExp.matches (Yup.body re_phone) x = true -> x <> [].
Proof.
  rewrite ContactFacts.re_phone_spec, andb_true_iff, Nat.leb_le.
  intros [H _] ->. simpl in H. lia.
Qed.

Lemma postcode_nonempty x :
  RegExp.matches (Yup.body re_postcode) x = true -> x <> [].
Proof.
  rewrite ContactFacts.re_postcode_spec, !andb_true_iff, Nat.leb_le.
  intros [[H _] _] ->. simpl in H. lia.
Qed.

Lemma two_words_nonempty x :
  RegExp.matches (Yup.body re_two_words) x = true -> x <> [].
Proof.
  rewrite ExportedFacts.re_two_words_spec.
  intros (a & w & b & -> & [Ha _] & _) E. apply app_eq_nil in E as [-> _]. congruence.
Qed.

(** [matches(/^\d+$/).min(4).max(10).required()] *)
Lemma raw_exported_postcode x :
  exists errs,
    Exported.check Validation.contactSchema "postcode" (Str x) = Ok errs /\
    (errs = [] <-> 4 <= length x <= 10 /\ Rules.digits x = true).
Proof.
  eexists. split; [raw; reflexivity|].
  destruct (RegExp.matches (Yup.body re_digits) x) eqn:Em.
  - apply ExportedFacts.re_digits_spec in Em as [_ Hd]. rewrite Hd.
    destruct (Nat.leb_spec 4 (length x)), (Nat.leb_spec (length x) 10),
      (Nat.eqb_spec (length x) 0); simpl;
      split; (lia || discriminate || reflexivity || idtac);
      try (intros [? _]; lia); intros _; (split; [lia | reflexivity]).
  - split; [discriminate|]. intros [Hl Hd]. exfalso.
    assert (RegExp.matches (Yup.body re_digits) x = true); [|congruence].
    apply ExportedFacts.re_digits_spec. split; [|exact Hd].
    intros ->. simpl in Hl. lia.
Qed.

(** A shape whose fields each report a list of messages. *)
Lemma isValid_fields (sh : Yup.shape) (o : Value.object) (P : string -> Prop) :
  Forall (fun ks => exists errs,
              Yup.validate ks.1 ks.2 (get o ks.1) = Ok errs /\
              (errs = [] <-> P ks.1)) sh ->
  exists b, Exported.isValid sh o = Ok b /\
            (b = true <-> Forall P (map fst sh)).
Proof.
  unfold Exported.isValid.
  induction 1 as [| [k s] sh (errs & Hv & HP) _ (b & Hb & IH)]; simpl.
  - exists true. split; [reflexivity|]. split; [constructor | reflexivity].
  - simpl in Hv, HP. rewrite Hv. simpl.
    destruct (Yup.validateObject sh o) as [rest |]; simpl in *; [|discriminate].
    injection Hb as <-.
    eexists. split; [reflexivity|]. rewrite Forall_cons, <- HP, <- IH.
    destruct errs, rest; simpl; intuition congruence.
Qed.

End ExportedSchema.

(** The contact-name rule of the exported schema.  [/^\S+\s+\S+$/] accepts
    exactly the values made of two words with a gap of whitespace between
    them and nothing around them.  Every accepted value has exactly two
    whitespace-separated tokens and is not changed by [trim]; a value with
    blanks around it, or with a third word, is refused. *)
Theorem exported_contactName_rule :
  (forall s : JS.str,
      Exported.check Validation.contactSchema "contactName" (Value.Str s) = Value.Ok []
      <-> Exported.twoWords s) /\
  (forall a w b : JS.str,
      Exported.word a -> Exported.gap w -> Exported.word b ->
      Rules.tokens (a ++ w ++ b) = [a; b] /\ JS.trim (a ++ w ++ b) = a ++ w ++ b) /\
  (forall s : JS.str,
      Exported.twoWords s -> length (Rules.tokens s) = 2 /\ JS.trim s = s).
Proof.
  split; [|split].
  - intros s.
    destruct (ExportedSchema.raw_matches "contactName" re_two_words None None s
                (ExportedSchema.two_words_nonempty s)) as (errs & Hv & Hiff).
    change (Exported.check Validation.contactSchema "contactName" (Value.Str s))
      with (Yup.validate "contactName"
              (Yup.string .> Yup.matches re_two_words None .> Yup.required None)
              (Value.Str s)).
    rewrite Hv, <- ExportedFacts.re_two_words_spec, <- Hiff.
    split; [now intros [= ->] | now intros ->].
  - intros a w b Ha Hw Hb. split.
    + now apply ExportedFacts.twoWords_tokens.
    + now apply ExportedFacts.twoWords_trim.
  - intros s (a & w & b & -> & Ha & Hw & Hb). split.
    + now rewrite ExportedFacts.twoWords_tokens.
    + now apply ExportedFacts.twoWords_trim.
Qed.

(** Witness: "Jane Doe" is two words. *)
Lemma exported_contactName_rule_witness :
  Exported.twoWords (JS.lit "Jane Doe") /\
  length (Rules.tokens (JS.lit "Jane Doe")) = 2 /\
  JS.trim (JS.lit "Jane Doe") = JS.lit "Jane Doe".
Proof.
  assert (H : Exported.twoWords (JS.lit "Jane Doe")).
  { exists (JS.lit "Jane"), (JS.lit " "), (JS.lit "Doe").
    repeat split; (reflexivity || discriminate). }
  split; [exact H|].
  exact (proj2 (proj2 exported_contactName_rule) (JS.lit "Jane Doe") H).
Defined.

(** Validity under the exported contact schema.  [isValid] never throws
    on such an object, and it is true exactly when [companyName], [address]
    and [idea] have at least 2, 5 and 30 characters, [postcode] is 4 to 10
    decimal digits, [contactName] is two words, [contactPhone] is at least
    ten decimal digits, [email] is a non-empty well-formed address and
    [protectData] is not [false]: the key may be missing, because the
    schema does not require it. *)
Theorem exported_contactSchema_valid (v : Exported.values) :
  exists b,
    Exported.isValid Validation.contactSchema (Exported.object v) = Value.Ok b /\
    (b = true <->
       2 <= length (Exported.companyName v) /\
       5 <= length (Exported.address v) /\
       (4 <= length (Exported.postcode v) <= 10 /\
        Forall Rules.decimalDigit (Exported.postcode v)) /\
       Exported.twoWords (Exported.contactName v) /\
       (10 <= length (Exported.contactPhone v) /\
        Forall Rules.decimalDigit (Exported.contactPhone v)) /\
       (Exported.email v <> [] /\ Rules.isEmail (Exported.email v) = true) /\
       30 <= length (Exported.idea v) /\
       Exported.protectData v <> Some false).
Proof.
  set (P := fun k : string =>
    if String.eqb k "companyName" then 2 <= length (Exported.companyName v)
    else if String.eqb k "address" then 5 <= length (Exported.address v)
    else if String.eqb k "postcode" then
      4 <= length (Exported.postcode v) <= 10 /\
      Rules.digits (Exported.postcode v) = true
    else if String.eqb k "contactName" then
      RegExp.matches (Yup.body re_two_words) (Exported.contactName v) = true
    else if String.eqb k "contactPhone" then
      RegExp.matches (Yup.body re_phone) (Exported.contactPhone v) = true
    else if String.eqb k "email" then
      Exported.email v <> [] /\ Rules.isEmail (Exported.email v) = true
    else if String.eqb k "idea" then 30 <= length (Exported.idea v)
    else if String.eqb k "protectData" then Exported.protectData v <> Some false
    else True).
  destruct (ExportedSchema.isValid_fields Validation.contactSchema
              (Exported.object v) P) as (b & Hb & Hiff).
  { unfold Validation.contactSchema, P.
    repeat apply List.Forall_cons; try apply List.Forall_nil; cbn [fst snd];
      simpl (String.eqb _ _); cbv beta iota.
    - apply ExportedSchema.raw_min. lia.
    - eexists. split; [reflexivity|]. tauto.
    - apply ExportedSchema.raw_min. lia.
    - apply ExportedSchema.raw_exported_postcode.
    - apply ExportedSchema.raw_matches, ExportedSchema.two_words_nonempty.
    - apply ExportedSchema.raw_matches, ExportedSchema.phone_nonempty.
    - apply ExportedSchema.raw_email.
    - eexists. split; [reflexivity|]. tauto.
    - apply ExportedSchema.raw_min. lia.
    - unfold Exported.object.
      destruct (Exported.protectData v) as [[|] |];
        (eexists; split; [reflexivity|]; simpl; split; congruence). }
  exists b. split; [exact Hb|]. rewrite Hiff.
  unfold Validation.contactSchema, P. simpl map.
  rewrite !Forall_cons, Forall_nil. simpl (String.eqb _ _). cbv beta iota.
  rewrite ExportedFacts.re_two_words_spec, ContactFacts.re_phone_spec,
    andb_true_iff, Nat.leb_le, !ContactFacts.digits_Forall.
  tauto.
Qed.

(** The exported contact schema and the schema of ContactForm.tsx accept
    the same strings in the eight text fields other than [contactName]:
    the messages differ, and the postcode rule is written as a digits
    pattern with two length bounds in one and as [/^\d{4,10}$/] in the
    other, but a raw string passes one exactly when it passes the other.
    On [contactName] neither schema accepts all the other accepts: a tab
    between the words passes the exported pattern only, a blank before the
    first word passes the test of the component only. *)
Theorem exported_accepts_like_component :
  (forall (k : string) (x : JS.str),
      k ∈ ["companyName"; "natureOfBusiness"; "address"; "postcode";
           "contactPhone"; "email"; "linkedin"; "idea"]%string ->
      Exported.check Validation.contactSchema k (Value.Str x) = Value.Ok [] <->
      Exported.check ContactForm.contactSchema k (Value.Str x) = Value.Ok []) /\
  (Exported.check Validation.contactSchema "contactName"
     (Value.Str Samples.janeTabDoe) = Value.Ok [] /\
   Exported.check ContactForm.contactSchema "contactName"
     (Value.Str Samples.janeTabDoe)
     = Value.Ok ["Please enter at least first and last name"%string]) /\
  (Exported.check Validation.contactSchema "contactName"
     (Value.Str (JS.lit " Jane Doe")) <> Value.Ok [] /\
   Exported.check ContactForm.contactSchema "contactName"
     (Value.Str (JS.lit " Jane Doe")) = Value.Ok []).
Proof.
  split; [|split; [split; vm_compute; reflexivity
                  | split; [vm_compute; discriminate | vm_compute; reflexivity]]].
  intros k x Hk.
  assert (Hiff : forall (a b : Value.result (list string)) (P : Prop),
             (exists errs, a = Value.Ok errs /\ (errs = [] <-> P)) ->
             (exists errs, b = Value.Ok errs /\ (errs = [] <-> P)) ->
             (a = Value.Ok [] <-> b = Value.Ok [])).
  { intros a b P (e1 & -> & H1) (e2 & -> & H2).
    split; intros [= ->]; f_equal; [apply H2, H1 | apply H1, H2]; reflexivity. }
  repeat (apply elem_of_cons in Hk as [-> | Hk]); [..|now apply elem_of_nil in Hk].
  - apply (Hiff _ _ (2 <= length x)); apply ExportedSchema.raw_min; lia.
  - split; reflexivity.
  - apply (Hiff _ _ (5 <= length x)); apply ExportedSchema.raw_min; lia.
  - apply (Hiff _ _ (4 <= length x <= 10 /\ Rules.digits x = true)).
    + apply ExportedSchema.raw_exported_postcode.
    + destruct (ExportedSchema.raw_matches "postcode" re_postcode
                  (Some "Postcode must be 4–10 digits"%string)
                  (Some "Postcode is required"%string) x
                  (ExportedSchema.postcode_nonempty x)) as (errs & Hv & Hok).
      exists errs. split; [exact Hv|].
      rewrite Hok, ContactFacts.re_postcode_spec, !andb_true_iff, !Nat.leb_le. tauto.
  - apply (Hiff _ _ (RegExp.matches (Yup.body re_phone) x = true));
      apply ExportedSchema.raw_matches, ExportedSchema.phone_nonempty.
  - apply (Hiff _ _ (x <> [] /\ Rules.isEmail x = true)); apply ExportedSchema.raw_email.
  - split; reflexivity.
  - apply (Hiff _ _ (30 <= length x)); apply ExportedSchema.raw_min; lia.
Qed.

(** Witness: the postcode "1234" under both schemas. *)
Lemma exported_accepts_like_component_witness :
  Exported.check Validation.contactSchema "postcode" (Value.Str (JS.lit "1234"))
    = Value.Ok [] <->
  Exported.check ContactForm.contactSchema "postcode" (Value.Str (JS.lit "1234"))
    = Value.Ok [].
Proof.
  apply (proj1 exported_accepts_like_component "postcode"%string (JS.lit "1234")).
  rewrite !elem_of_cons. tauto.
Defined.

(** ** The newsletter schemas *)

Module NewsletterFacts.
Import Value.

(** The entries of a validator whose only rule is a required e-mail
    field. *)
Lemma rule (o : outcome) (r : NewsletterFormValues) (req shape : string) :
  req <> shape ->
  (exists e, o = Resolved e /\
     forall k, e !! k =
       if String.eqb k "email"
       then Rules.requiredAnd (newsletterEmail r) req
              (Rules.isEmail (newsletterEmail r)) shape
       else None) ->
  exists e, o = Resolved e /\
    (e !! "email" = None <->
       newsletterEmail r <> [] /\ Rules.isEmail (newsletterEmail r) = true) /\
    (e !! "email" = Some req <-> newsletterEmail r = []) /\
    (e !! "email" = Some shape <->
       newsletterEmail r <> [] /\ Rules.isEmail (newsletterEmail r) = false) /\
    dom e ⊆ {[ "email"%string ]}.
Proof.
  intros Hne (e & He & Hk). exists e. split; [exact He|].
  rewrite (Hk "email"%string). simpl (String.eqb _ _). cbv beta iota.
  destruct (ContactFacts.requiredAnd_cases (newsletterEmail r) req shape
              (Rules.isEmail (newsletterEmail r)) Hne) as (H1 & H2 & H3).
  split; [exact H1|]. split; [exact H2|]. split; [exact H3|].
  apply elem_of_subseteq. intros k Hin.
  apply elem_of_dom in Hin as [m Hm]. rewrite Hk in Hm.
  destruct (String.eqb_spec k "email") as [-> | ?]; [|discriminate].
  now apply elem_of_singleton.
Qed.

(** The exported newsletter schema under Formik. *)
Lemma exported_entries r :
  exists e, runValidationSchema Validation.newsletterSchema (newsletterValues r)
            = Resolved e /\
    forall k, e !! k =
      if String.eqb k "email"
      then Rules.requiredAnd (newsletterEmail r) "Required"
             (Rules.isEmail (newsletterEmail r)) "Invalid email"
      else None.
Proof.
  set (f := fun k : string =>
         if String.eqb k "email"
         then Rules.requiredAnd (newsletterEmail r) "Required"
                (Rules.isEmail (newsletterEmail r)) "Invalid email"
         else None).
  assert (Hf : Forall (fun ks =>
            Yup.validate ks.1 ks.2
              (Value.get (prepareDataForValidation (newsletterValues r)) ks.1)
            = Ok (option_list (f ks.1)))
         Validation.newsletterSchema).
  { unfold Validation.newsletterSchema.
    repeat apply List.Forall_cons; try apply List.Forall_nil. cbn [fst snd].
    change (Value.get (prepareDataForValidation (newsletterValues r)) "email")
      with (prepareValue (Str (newsletterEmail r))).
    unfold Yup.email, Yup.matchesWith.
    now erewrite YupFacts.validate_required_with by apply YupFacts.matchesFn_email. }
  assert (Hne : forall k, f k <> Some EmptyString).
  { intros k. unfold f, Rules.requiredAnd.
    destruct (String.eqb k "email"); [|discriminate].
    destruct (newsletterEmail r); [discriminate|].
    now destruct (Rules.isEmail _). }
  destruct (FormikFacts.runValidationSchema_fields _ _ _ Hf Hne) as (e & He & Hk).
  exists e. split; [exact He|]. intros k. rewrite Hk.
  destruct (bool_decide _) eqn:Hin; [reflexivity|].
  apply bool_decide_eq_false in Hin. unfold f.
  destruct (String.eqb_spec k "email") as [-> | ?]; [|reflexivity].
  exfalso. apply Hin. left.
Qed.

End NewsletterFacts.

(** The newsletter form of the hook-based copy, whose schema
    [Yup.string().email().required()] names no message: for every
    newsletter record the validator resolves; the [email] entry is absent
    exactly on a non-empty well-formed address, it is Yup's
    "email is a required field" exactly on the empty string and
    "email must be a valid email" exactly on a non-empty malformed
    address; no other key has an entry. *)
Theorem hooks_newsletter_rule (r : NewsletterFormValues) :
  exists e, ContactFormHooks.validateNewsletter r = Resolved e /\
    (e !! "email" = None <->
       newsletterEmail r <> [] /\ Rules.isEmail (newsletterEmail r) = true) /\
    (e !! "email" = Some "email is a required field" <-> newsletterEmail r = []) /\
    (e !! "email" = Some "email must be a valid email" <->
       newsletterEmail r <> [] /\ Rules.isEmail (newsletterEmail r) = false) /\
    dom e ⊆ {[ "email" ]}.
Proof.
  apply NewsletterFacts.rule; [discriminate|].
  apply ContactFacts.validateNewsletter_hooks_entries.
Qed.

(** The exported newsletter schema
    [Yup.string().email("Invalid email").required("Required")], run by
    Formik on a newsletter record: the [email] entry is absent exactly on
    a non-empty well-formed address, "Required" exactly on the empty
    string and "Invalid email" exactly on a non-empty malformed address;
    no other key has an entry. *)
Theorem exported_newsletter_rule (r : NewsletterFormValues) :
  exists e, runValidationSchema Validation.newsletterSchema (newsletterValues r)
            = Resolved e /\
    (e !! "email" = None <->
       newsletterEmail r <> [] /\ Rules.isEmail (newsletterEmail r) = true) /\
    (e !! "email" = Some "Required" <-> newsletterEmail r = []) /\
    (e !! "email" = Some "Invalid email" <->
       newsletterEmail r <> [] /\ Rules.isEmail (newsletterEmail r) = false) /\
    dom e ⊆ {[ "email" ]}.
Proof.
  apply NewsletterFacts.rule; [discriminate|].
  apply NewsletterFacts.exported_entries.
Qed.

(** ** The components as state machines *)

Module FormFacts.
Import Form.

Lemma run_app_last c st actions a :
  run c st (actions ++ [a]) = step c (run c st actions) a.
Proof. unfold run. now rewrite fold_left_app. Qed.

Lemma isValid_empty (e : gmap string string) : isValid e = true -> e = ∅.
Proof.
  unfold isValid. intros H. apply Nat.eqb_eq in H. now apply map_size_empty_iff.
Qed.

Lemma revalidate_of_resolved c old v e :
  validate c v = Resolved e -> revalidate c old v = e.
Proof. unfold revalidate. now intros ->. Qed.

Lemma invariant_initial c : invariant c initial.
Proof.
  split.
  - constructor.
  - now left.
  - intros k Hk. exfalso. revert Hk. apply not_elem_of_empty.
Qed.

Lemma invariant_change c st e : invariant c st -> invariant c (change c st e).
Proof.
  intros [Hs He Ht]. split; simpl.
  - exact Hs.
  - right. intros e0. apply revalidate_of_resolved.
  - exact Ht.
Qed.

Lemma invariant_step c st a : invariant c st -> invariant c (step c st a).
Proof.
  intros Hinv. destruct a as [e | files | field |]; simpl.
  - now apply invariant_change.
  - now apply invariant_change.
  - destruct (bool_decide (field ∈ blurable c)) eqn:Hb; [|exact Hinv].
    apply bool_decide_eq_true in Hb. destruct Hinv as [Hs He Ht]. split; simpl.
    + exact Hs.
    + right. intros e0. apply revalidate_of_resolved.
    + intros k Hk. apply elem_of_union in Hk as [Hk | Hk].
      * apply elem_of_singleton in Hk as ->. now left.
      * now apply Ht.
  - destruct (submitDisabled st); [exact Hinv|].
    destruct Hinv as [Hs He Ht]. split; simpl.
    + destruct (validate c (Session.values (session st))) as [e |] eqn:Hv;
        [|exact Hs].
      destruct (isValid e) eqn:Hok; [|exact Hs].
      apply isValid_empty in Hok as ->. now constructor.
    + right. intros e0. apply revalidate_of_resolved.
    + intros k _. right. lia.
Qed.

Lemma invariant_run c actions : invariant c (run c initial actions).
Proof.
  induction actions as [| a actions IH] using rev_ind.
  - apply invariant_initial.
  - rewrite run_app_last. now apply invariant_step.
Qed.

(** Past the initial state the errors are those of the values. *)
Lemma errors_current_contact actions k :
  k ∈ Session.touched (session (run contactForm initial actions)) ->
  Session.errors (session (run contactForm initial actions)) !! k =
  Rules.contactError (Session.values (session (run contactForm initial actions))) k.
Proof.
  intros Hk. destruct (invariant_run contactForm actions) as [_ [He | He] _].
  - rewrite He in Hk. exfalso. revert Hk. apply not_elem_of_empty.
  - destruct (ContactFacts.validateContact_entries
                (Session.values (session (run contactForm initial actions))))
      as (e & Hv & Hl).
    now rewrite (He e Hv).
Qed.

Lemma errors_current_hooks actions k :
  k ∈ Session.touched (session (run hooksForm initial actions)) ->
  Session.errors (session (run hooksForm initial actions)) !! k =
  Rules.hooksContactError (Session.values (session (run hooksForm initial actions))) k.
Proof.
  intros Hk. destruct (invariant_run hooksForm actions) as [_ [He | He] _].
  - rewrite He in Hk. exfalso. revert Hk. apply not_elem_of_empty.
  - destruct (ContactFacts.validateContact_hooks_entries
                (Session.values (session (run hooksForm initial actions))))
      as (e & Hv & Hl).
    now rewrite (He e Hv).
Qed.

Lemma errorLine_Some st k m :
  errorLine st k = Some m ->
  k ∈ Session.touched (session st) /\ Session.errors (session st) !! k = Some m.
Proof.
  unfold errorLine. destruct (bool_decide _) eqn:Hb; [|discriminate].
  apply bool_decide_eq_true in Hb.
  destruct (Session.errors (session st) !! k) as [[| a s] |]; try discriminate.
  now intros [= <-].
Qed.

Lemma rendered_line st k m :
  (k, m) ∈ rendered st -> k ∈ errorLines /\ errorLine st k = Some m.
Proof.
  unfold rendered. intros H. apply list_elem_of_omap in H as (name & Hin & Hl).
  destruct (errorLine st name) as [m' |] eqn:El; [|discriminate].
  simpl in Hl. injection Hl as -> ->. now split.
Qed.

Local Ltac min_rule H :=
  match type of H with
  | Rules.requiredAnd ?x ?req (?n <=? _) ?shape = None =>
      assert (Hn : 0 < n) by lia;
      assert (Hd : req <> shape) by discriminate;
      exact (proj1 (proj1 (requiredAnd_min x n req shape Hn Hd)) H)
  end.

(** The fields of a record every rule of the table accepts. *)
Lemma shared_rules v :
  (forall k, k <> "postcode"%string -> k <> "contactPhone"%string ->
             Rules.contactError v k = None) ->
  2 <= length (companyName v) /\
  5 <= length (address v) /\
  (contactName v <> [] /\ In JS.SPACE (JS.trim (contactName v))) /\
  (email v <> [] /\ Rules.isEmail (email v) = true) /\
  30 <= length (idea v) /\
  (forall f, file v = Some f -> (Value.size f <= 10 * 1024 * 1024)%N) /\
  nda v = true.
Proof.
  intros H.
  assert (Hk : forall k, (String.eqb k "postcode" || String.eqb k "contactPhone") = false ->
                         Rules.contactError v k = None).
  { intros k Hb. apply orb_false_elim in Hb as [H1 H2].
    apply H; intros ->; discriminate. }
  pose proof (Hk "companyName"%string eq_refl) as Hcompany.
  pose proof (Hk "address"%string eq_refl) as Haddress.
  pose proof (Hk "contactName"%string eq_refl) as Hname.
  pose proof (Hk "email"%string eq_refl) as Hemail.
  pose proof (Hk "idea"%string eq_refl) as Hidea.
  pose proof (Hk "file"%string eq_refl) as Hfile.
  pose proof (Hk "nda"%string eq_refl) as Hnda.
  unfold Rules.contactError in Hcompany, Haddress, Hname, Hemail, Hidea, Hfile, Hnda.
  simpl (String.eqb _ _) in Hcompany, Haddress, Hname, Hemail, Hidea, Hfile, Hnda.
  cbv beta iota in Hcompany, Haddress, Hname, Hemail, Hidea, Hfile, Hnda.
  split; [|split; [|split; [|split; [|split; [|split]]]]].
  - min_rule Hcompany.
  - min_rule Haddress.
  - apply ContactFacts.requiredAnd_cases in Hname as [Hne Hok]; [|discriminate].
    split; [exact Hne|]. unfold Rules.twoPieces in Hok.
    now rewrite Nat.leb_le, JSFacts.split_two in Hok.
  - apply ContactFacts.requiredAnd_cases in Hemail; [exact Hemail | discriminate].
  - min_rule Hidea.
  - intros f Hf. rewrite Hf in Hfile.
    destruct (N.leb _ _) eqn:E; [now apply N.leb_le in E | discriminate].
  - now destruct (nda v).
Qed.

(** A record ContactForm.tsx has no error for. *)
Lemma valid_contact v :
  ContactForm.validateContact v = Resolved ∅ ->
  2 <= length (companyName v) /\
  5 <= length (address v) /\
  (4 <= length (postcode v) <= 10 /\ Forall Rules.decimalDigit (postcode v)) /\
  (contactName v <> [] /\ In JS.SPACE (JS.trim (contactName v))) /\
  (10 <= length (contactPhone v) /\ Forall Rules.decimalDigit (contactPhone v)) /\
  (email v <> [] /\ Rules.isEmail (email v) = true) /\
  30 <= length (idea v) /\
  (forall f, file v = Some f -> (Value.size f <= 10 * 1024 * 1024)%N) /\
  nda v = true.
Proof.
  intros Hv. destruct (ContactFacts.validateContact_entries v) as (e & He & Hl).
  assert (e = ∅) as -> by (apply SessionFacts.Resolved_inj; congruence).
  assert (H : forall k, Rules.contactError v k = None).
  { intros k. rewrite <- Hl. apply lookup_empty. }
  destruct (shared_rules v (fun k _ _ => H k)) as (H1 & H2 & H3 & H4 & H5 & H6 & H7).
  pose proof (H "postcode"%string) as Hpost.
  pose proof (H "contactPhone"%string) as Hphone.
  unfold Rules.contactError in Hpost, Hphone.
  simpl (String.eqb _ _) in Hpost, Hphone. cbv beta iota in Hpost, Hphone.
  apply ContactFacts.requiredAnd_cases in Hpost as [_ Hpost]; [|discriminate].
  apply ContactFacts.requiredAnd_cases in Hphone as [_ Hphone]; [|discriminate].
  rewrite !andb_true_iff, !Nat.leb_le, ContactFacts.digits_Forall in Hpost.
  rewrite andb_true_iff, Nat.leb_le, ContactFacts.digits_Forall in Hphone.
  tauto.
Qed.

(** A record the hook-based copy has no error for. *)
Lemma valid_hooks v :
  ContactFormHooks.validateContact v = Resolved ∅ ->
  2 <= length (companyName v) /\
  5 <= length (address v) /\
  postcode v <> [] /\
  (contactName v <> [] /\ In JS.SPACE (JS.trim (contactName v))) /\
  contactPhone v <> [] /\
  (email v <> [] /\ Rules.isEmail (email v) = true) /\
  30 <= length (idea v) /\
  (forall f, file v = Some f -> (Value.size f <= 10 * 1024 * 1024)%N) /\
  nda v = true.
Proof.
  intros Hv. destruct (ContactFacts.validateContact_hooks_entries v) as (e & He & Hl).
  assert (e = ∅) as -> by (apply SessionFacts.Resolved_inj; congruence).
  assert (H : forall k, Rules.hooksContactError v k = None).
  { intros k. rewrite <- Hl. apply lookup_empty. }
  assert (Hs : forall k, k <> "postcode"%string -> k <> "contactPhone"%string ->
                         Rules.contactError v k = None).
  { intros k Hp Hc. rewrite <- (H k). unfold Rules.hooksContactError.
    destruct (String.eqb_spec k "postcode"); [contradiction|].
    destruct (String.eqb_spec k "contactPhone"); [contradiction|]. reflexivity. }
  destruct (shared_rules v Hs) as (H1 & H2 & H3 & H4 & H5 & H6 & H7).
  pose proof (H "postcode"%string) as Hpost.
  pose proof (H "contactPhone"%string) as Hphone.
  unfold Rules.hooksContactError in Hpost, Hphone.
  simpl (String.eqb _ _) in Hpost, Hphone. cbv beta iota in Hpost, Hphone.
  assert (postcode v <> []) by (destruct (postcode v); [discriminate | congruence]).
  assert (contactPhone v <> []) by (destruct (contactPhone v); [discriminate | congruence]).
  tauto.
Qed.

End FormFacts.

(** What [onSubmit] receives.  After whatever the user did, a record the
    submit handler of ContactForm.tsx is called with satisfies every rule
    of the form: the lengths, the digits of the postcode and of the phone,
    a space inside the trimmed contact name, a well-formed e-mail address,
    a file of at most 10 MiB if there is one, and the NDA box ticked.  The
    handler of the hook-based copy is promised less: any non-empty postcode
    and phone; typing the end-to-end record with the postcode "12a4" and
    pressing the button calls it with that record, while ContactForm.tsx
    submits nothing. *)
Theorem onSubmit_only_valid (actions : list Form.action) (v : ContactFormValues) :
  (v ∈ Form.submitted (Form.run Form.contactForm Form.initial actions) ->
   2 <= length (companyName v) /\
   5 <= length (address v) /\
   (4 <= length (postcode v) <= 10 /\ Forall Rules.decimalDigit (postcode v)) /\
   (contactName v <> [] /\ In JS.SPACE (JS.trim (contactName v))) /\
   (10 <= length (contactPhone v) /\ Forall Rules.decimalDigit (contactPhone v)) /\
   (email v <> [] /\ Rules.isEmail (email v) = true) /\
   30 <= length (idea v) /\
   (forall f, file v = Some f -> (Value.size f <= 10 * 1024 * 1024)%N) /\
   nda v = true) /\
  (v ∈ Form.submitted (Form.run Form.hooksForm Form.initial actions) ->
   2 <= length (companyName v) /\
   5 <= length (address v) /\
   postcode v <> [] /\
   (contactName v <> [] /\ In JS.SPACE (JS.trim (contactName v))) /\
   contactPhone v <> [] /\
   (email v <> [] /\ Rules.isEmail (email v) = true) /\
   30 <= length (idea v) /\
   (forall f, file v = Some f -> (Value.size f <= 10 * 1024 * 1024)%N) /\
   nda v = true) /\
  Form.submitted
    (Form.run Form.hooksForm Form.initial
       (Form.fillIn ++ [Form.Edit (SetPostcode (JS.lit "12a4")); Form.PressSubmit]))
    = [setFieldValue Samples.joLee (SetPostcode (JS.lit "12a4"))] /\
  Form.submitted
    (Form.run Form.contactForm Form.initial
       (Form.fillIn ++ [Form.Edit (SetPostcode (JS.lit "12a4")); Form.PressSubmit]))
    = [].
Proof.
  split; [|split; [|split; vm_compute; reflexivity]].
  - intros Hv. destruct (FormFacts.invariant_run Form.contactForm actions) as [Hs _ _].
    rewrite Forall_forall in Hs. apply FormFacts.valid_contact, (Hs v Hv).
  - intros Hv. destruct (FormFacts.invariant_run Form.hooksForm actions) as [Hs _ _].
    rewrite Forall_forall in Hs. apply FormFacts.valid_hooks, (Hs v Hv).
Qed.

(** Witness: the end-to-end record is typed in and the button pressed. *)
Lemma onSubmit_only_valid_witness :
  Samples.joLee ∈ Form.submitted
    (Form.run Form.contactForm Form.initial (Form.fillIn ++ [Form.PressSubmit])) /\
  (4 <= length (postcode Samples.joLee) <= 10 /\
   Forall Rules.decimalDigit (postcode Samples.joLee)).
Proof.
  assert (H : Samples.joLee ∈ Form.submitted
            (Form.run Form.contactForm Form.initial (Form.fillIn ++ [Form.PressSubmit]))).
  { assert (E : Form.submitted
              (Form.run Form.contactForm Form.initial (Form.fillIn ++ [Form.PressSubmit]))
              = [Samples.joLee]) by (vm_compute; reflexivity).
    rewrite E. constructor. }
  split; [exact H|].
  exact (proj1 (proj2 (proj2 (proj1 (onSubmit_only_valid _ _) H)))).
Defined.

(** A file error is silent.  Neither copy renders a message for [file]:
    when the file is the only thing wrong with the values of a form, the
    submit button is disabled and no error line is on the screen. *)
Theorem file_error_is_silent
    (c : Form.component) (actions : list Form.action) (m : string) :
  c = Form.contactForm \/ c = Form.hooksForm ->
  Form.validate c (Session.values (Form.session (Form.run c Form.initial actions)))
    = Resolved {[ "file"%string := m ]} ->
  Form.submitDisabled (Form.run c Form.initial actions) = true /\
  Form.rendered (Form.run c Form.initial actions) = [].
Proof.
  intros Hc Hv. destruct (FormFacts.invariant_run c actions) as [_ [He | He] _].
  - exfalso. rewrite He in Hv.
    assert (Hn : forall e, Form.validate c Session.initialValues = Resolved e ->
                           e !! "nda"%string = Some "You must agree to NDA"%string).
    { intros e. destruct Hc as [-> | ->]; vm_compute; intros [= <-]; reflexivity. }
    specialize (Hn _ Hv). rewrite lookup_singleton_ne in Hn by discriminate.
    discriminate.
  - specialize (He _ Hv). split.
    + unfold Form.submitDisabled, isValid. rewrite He, map_size_singleton. reflexivity.
    + assert (Hl : forall name, name <> "file"%string ->
                     Form.errorLine (Form.run c Form.initial actions) name = None).
      { intros name Hne. unfold Form.errorLine.
        rewrite He, lookup_singleton_ne by congruence. now destruct (bool_decide _). }
      unfold Form.rendered, Form.errorLines. simpl omap.
      rewrite !Hl by discriminate. reflexivity.
Qed.

(** Witness: the end-to-end record with a file of 10 MiB and one byte. *)
Lemma file_error_is_silent_witness :
  Form.submitDisabled
    (Form.run Form.contactForm Form.initial
       (Form.fillIn ++ [Form.PickFiles (Some [Samples.MiB10plus1])])) = true /\
  Form.rendered
    (Form.run Form.contactForm Form.initial
       (Form.fillIn ++ [Form.PickFiles (Some [Samples.MiB10plus1])])) = [].
Proof.
  apply (file_error_is_silent Form.contactForm _ "File size is too large (max 10MB)").
  - now left.
  - vm_compute. reflexivity.
Defined.



(** The file input.  Picking files stores the first file of the list, or
    [null] when the list is missing or empty, whatever was stored before;
    the [file] entry of the errors then depends on that file only: it is
    absent without a file, and with a file exactly when its size is at most
    10 MiB.  So closing the picker without a file clears a file error. *)
Theorem file_picker (st : Form.state) :
  Forall (fun c : Form.component =>
    (forall files,
        file (Session.values (Form.session (Form.step c st (Form.PickFiles files))))
        = Form.pickFile files) /\
    Session.errors (Form.session (Form.step c st (Form.PickFiles None))) !! "file" = None /\
    Session.errors (Form.session (Form.step c st (Form.PickFiles (Some [])))) !! "file" = None /\
    (forall f rest,
        Session.errors (Form.session
          (Form.step c st (Form.PickFiles (Some (f :: rest))))) !! "file" = None
        <-> (Value.size f <= 10 * 1024 * 1024)%N))
    [Form.contactForm; Form.hooksForm].
Proof.
  assert (Hfile : forall r o, file (setFieldValue r (SetFile o)) = o).
  { now intros []. }
  assert (Hc : forall files,
             Session.errors (Form.session (Form.step Form.contactForm st (Form.PickFiles files)))
               !! "file" =
             match Form.pickFile files with
             | Some f => if (Value.size f <=? 10 * 1024 * 1024)%N then None
                         else Some "File size is too large (max 10MB)"%string
             | None => None
             end).
  { intros files. simpl.
    destruct (ContactFacts.validateContact_entries
                (setFieldValue (Session.values (Form.session st))
                   (SetFile (Form.pickFile files)))) as (e & Hv & Hl).
    rewrite (FormFacts.revalidate_of_resolved Form.contactForm _ _ e Hv), Hl.
    unfold Rules.contactError. simpl (String.eqb _ _). cbv beta iota.
    now rewrite Hfile. }
  assert (Hh : forall files,
             Session.errors (Form.session (Form.step Form.hooksForm st (Form.PickFiles files)))
               !! "file" =
             match Form.pickFile files with
             | Some f => if (Value.size f <=? 10 * 1024 * 1024)%N then None
                         else Some "File size is too large (max 10MB)"%string
             | None => None
             end).
  { intros files. simpl.
    destruct (ContactFacts.validateContact_hooks_entries
                (setFieldValue (Session.values (Form.session st))
                   (SetFile (Form.pickFile files)))) as (e & Hv & Hl).
    rewrite (FormFacts.revalidate_of_resolved Form.hooksForm _ _ e Hv), Hl.
    unfold Rules.hooksContactError, Rules.contactError.
    simpl (String.eqb _ _). cbv beta iota.
    now rewrite Hfile. }
  repeat apply List.Forall_cons; try apply List.Forall_nil; cbv beta.
  - split; [intros files; apply Hfile|]. rewrite !Hc.
    split; [reflexivity|]. split; [reflexivity|]. intros f rest. rewrite Hc.
    simpl Form.pickFile. cbv iota beta.
    destruct (N.leb _ _) eqn:E.
    + apply N.leb_le in E. split; [intros _; exact E | reflexivity].
    + apply N.leb_gt in E. split; [discriminate | intros Hle; exfalso; lia].
  - split; [intros files; apply Hfile|]. rewrite !Hh.
    split; [reflexivity|]. split; [reflexivity|]. intros f rest. rewrite Hh.
    simpl Form.pickFile. cbv iota beta.
    destruct (N.leb _ _) eqn:E.
    + apply N.leb_le in E. split; [intros _; exact E | reflexivity].
    + apply N.leb_gt in E. split; [discriminate | intros Hle; exfalso; lia].
Qed.

(** The error lines on the screen are current: in either copy, after
    whatever the user did, a line shown under a field is the message the
    rules of that copy give for the value the field holds now, and only the
    eight fields with an error line can show one. *)
Theorem rendered_lines_are_current
    (actions : list Form.action) (k m : string) :
  ((k, m) ∈ Form.rendered (Form.run Form.contactForm Form.initial actions) ->
   k ∈ Form.errorLines /\
   Rules.contactError
     (Session.values (Form.session (Form.run Form.contactForm Form.initial actions))) k
   = Some m) /\
  ((k, m) ∈ Form.rendered (Form.run Form.hooksForm Form.initial actions) ->
   k ∈ Form.errorLines /\
   Rules.hooksContactError
     (Session.values (Form.session (Form.run Form.hooksForm Form.initial actions))) k
   = Some m).
Proof.
  split; intros H; apply FormFacts.rendered_line in H as [Hk Hl];
    (split; [exact Hk|]); apply FormFacts.errorLine_Some in Hl as [Ht He].
  - now rewrite <- FormFacts.errors_current_contact.
  - now rewrite <- FormFacts.errors_current_hooks.
Qed.

(** Witness: the untouched e-mail field is left. *)
Lemma rendered_lines_are_current_witness :
  Rules.contactError
    (Session.values (Form.session
       (Form.run Form.contactForm Form.initial [Form.Leave "email"]))) "email"
  = Some "Email is required"%string.
Proof.
  apply (proj1 (rendered_lines_are_current [Form.Leave "email"] "email"
                  "Email is required")).
  assert (E : Form.rendered (Form.run Form.contactForm Form.initial [Form.Leave "email"])
              = [("email", "Email is required")]%string) by (vm_compute; reflexivity).
  rewrite E. constructor.
Defined.

(** The submit button.  On the first render it is enabled although the
    initial values break eight rules; once the form has left its initial
    state it is enabled exactly when the values break no rule of the
    copy. *)
Theorem submit_button (actions : list Form.action) :
  (Form.submitDisabled Form.initial = false /\
   size (dom (match ContactForm.validateContact Session.initialValues with
              | Resolved e => e | Rejected _ => ∅ end)) = 8) /\
  (Form.session (Form.run Form.contactForm Form.initial actions) = Session.initialState \/
   (Form.submitDisabled (Form.run Form.contactForm Form.initial actions) = false <->
    forall k, Rules.contactError
                (Session.values (Form.session
                   (Form.run Form.contactForm Form.initial actions))) k = None)) /\
  (Form.session (Form.run Form.hooksForm Form.initial actions) = Session.initialState \/
   (Form.submitDisabled (Form.run Form.hooksForm Form.initial actions) = false <->
    forall k, Rules.hooksContactError
                (Session.values (Form.session
                   (Form.run Form.hooksForm Form.initial actions))) k = None)).
Proof.
  split; [split; vm_compute; reflexivity|]. split.
  - destruct (FormFacts.invariant_run Form.contactForm actions) as [_ [He | He] _];
      [now left | right].
    destruct (ContactFacts.validateContact_entries
                (Session.values (Form.session
                   (Form.run Form.contactForm Form.initial actions))))
      as (e & Hv & Hl).
    unfold Form.submitDisabled. rewrite (He e Hv), negb_false_iff, FormikFacts.isValid_spec.
    split; intros H k; [rewrite <- Hl | rewrite Hl]; apply H.
  - destruct (FormFacts.invariant_run Form.hooksForm actions) as [_ [He | He] _];
      [now left | right].
    destruct (ContactFacts.validateContact_hooks_entries
                (Session.values (Form.session
                   (Form.run Form.hooksForm Form.initial actions))))
      as (e & Hv & Hl).
    unfold Form.submitDisabled. rewrite (He e Hv), negb_false_iff, FormikFacts.isValid_spec.
    split; intros H k; [rewrite <- Hl | rewrite Hl]; apply H.
Qed.
